(** * gns3-gui: project lifecycle and local-server bootstrap of [MainWindow]

    A shallow embedding of the project lifecycle methods and of
    [startupLoading] of [gns3/main_window.py].  The window object
    ([self]) is a record; the collaborators the methods talk to (file
    system, dialogs, server manager, converter) answer through an
    environment of oracles indexed by a clock, and every call made to
    them is appended to an event trace. *)

From Stdlib Require Import String Ascii List ZArith Lia Bool Arith.
Import ListNotations.
Open Scope string_scope.

(** ** Python [str] and [posixpath] operations used by the window *)

Module PyStr.

(** [bool(s)] for a string. *)
Definition truthy (s : string) : bool :=
  match s with EmptyString => false | String _ _ => true end.

(** [bool(x)] for a value that is [None] or a string. *)
Definition truthy_opt (o : option string) : bool :=
  match o with None => false | Some s => truthy s end.

Fixpoint take (n : nat) (s : string) : string :=
  match n, s with
  | S k, String c r => String c (take k r)
  | _, _ => EmptyString
  end.

Fixpoint drop (n : nat) (s : string) : string :=
  match n, s with
  | S k, String _ r => drop k r
  | _, _ => s
  end.

(** [s.startswith(p)] *)
Definition startswith (s p : string) : bool := String.prefix p s.

(** [s.endswith(suf)] *)
Definition endswith (s suf : string) : bool :=
  (String.length suf <=? String.length s)%nat
  && (drop (String.length s - String.length suf) s =? suf).

(** [s[:-k]] for a positive literal [k]. *)
Definition drop_last (k : nat) (s : string) : string :=
  take (String.length s - k) s.

(** [s.rfind(c)] for a one-character needle: the highest index, or -1. *)
Fixpoint rfind (c : ascii) (s : string) : Z :=
  match s with
  | EmptyString => (-1)%Z
  | String a r =>
      let i := rfind c r in
      if (0 <=? i)%Z then (i + 1)%Z
      else if Ascii.eqb a c then 0%Z else (-1)%Z
  end.

(** [s[i:j]] for indices that are not negative. *)
Definition slice (s : string) (i j : Z) : string :=
  take (Z.to_nat j - Z.to_nat i) (drop (Z.to_nat i) s).

Fixpoint all_dots (s : string) : bool :=
  match s with
  | EmptyString => true
  | String a r => Ascii.eqb a "." && all_dots r
  end.

(** [genericpath._splitext(p, "/", None, ".")]: the extension starts at
    the last dot of the last component, leading dots of that component
    are not an extension. *)
Definition splitext (p : string) : string * string :=
  let sepIndex := rfind "/" p in
  let dotIndex := rfind "." p in
  if (sepIndex <? dotIndex)%Z then
    if all_dots (slice p (sepIndex + 1) dotIndex) then (p, EmptyString)
    else (take (Z.to_nat dotIndex) p, drop (Z.to_nat dotIndex) p)
  else (p, EmptyString).

(** [posixpath.basename(p)] *)
Definition basename (p : string) : string :=
  drop (Z.to_nat (rfind "/" p + 1)) p.

Fixpoint all_slashes (s : string) : bool :=
  match s with
  | EmptyString => true
  | String a r => Ascii.eqb a "/" && all_slashes r
  end.

(** [s.rstrip("/")] *)
Fixpoint rstrip_slash (s : string) : string :=
  match s with
  | EmptyString => EmptyString
  | String a r =>
      if all_slashes s then EmptyString else String a (rstrip_slash r)
  end.

(** [posixpath.dirname(p)] *)
Definition dirname (p : string) : string :=
  let head := take (Z.to_nat (rfind "/" p + 1)) p in
  if truthy head && negb (all_slashes head) then rstrip_slash head
  else head.

(** [posixpath.join(a, b)] *)
Definition join (a b : string) : string :=
  if startswith b "/" then b
  else if negb (truthy a) || endswith a "/" then a ++ b
  else a ++ "/" ++ b.

Fixpoint intersperse_all (new s : string) : string :=
  match s with
  | EmptyString => new
  | String a r => new ++ String a (intersperse_all new r)
  end.

(** The scan of [str.replace] for a pattern that is not empty: [skip]
    counts the characters of a match still to be passed over. *)
Fixpoint replace_scan (old new s : string) (skip : nat) : string :=
  match s with
  | EmptyString => EmptyString
  | String a r =>
      match skip with
      | S k => replace_scan old new r k
      | O =>
          if String.prefix old s
          then new ++ replace_scan old new r (String.length old - 1)
          else String a (replace_scan old new r 0)
      end
  end.

(** [s.replace(old, new)]: every non-overlapping occurrence, from the
    left. *)
Definition replace (s old new : string) : string :=
  if truthy old then replace_scan old new s 0
  else intersperse_all new s.

(** The line feed of ["\n".join(...)]. *)
Definition nl : string := String (ascii_of_nat 10) EmptyString.

(** [x in l] *)
Definition contains (x : string) (l : list string) : bool :=
  existsb (String.eqb x) l.

(** [l.remove(x)]: the first occurrence goes (the caller has checked
    that there is one). *)
Fixpoint list_remove (x : string) (l : list string) : list string :=
  match l with
  | [] => []
  | y :: r => if String.eqb x y then r else y :: list_remove x r
  end.

End PyStr.

(** ** Data model *)

(** [Node.stopped], [Node.started], [Node.suspended] of [gns3.node]. *)
Inductive NodeStatus := stopped | started | suspended.

(** What [saveProjectAs] reads of a node of the topology: [node.name()],
    [hasattr(node, "start")] and [node.status()]. *)
Record Node := mkNode {
  node_name : string;
  node_has_start : bool;
  node_status : NodeStatus
}.

Definition NodeStatus_eqb (a b : NodeStatus) : bool :=
  match a, b with
  | stopped, stopped | started, started | suspended, suspended => true
  | _, _ => false
  end.

(** The dictionary [self._project_settings]. *)
Record ProjectSettings := mkProjectSettings {
  project_name : string;
  project_path : option string;
  project_files_dir : option string;
  project_type : string
}.

(** The dictionary [NewProjectDialog.getNewProjectSettings()] hands to
    [_createNewProject]: the same four keys, all of them set. *)
Record NewProjectSettings := mkNewProjectSettings {
  new_project_name : string;
  new_project_path : string;
  new_project_files_dir : string;
  new_project_type : string
}.

(** The entries of [self._settings] the lifecycle reads. *)
Record GeneralSettings := mkGeneralSettings {
  projects_path : string;
  auto_launch_project_dialog : bool;
  check_for_update : bool;
  last_check_for_update : Z
}.

(** The attributes of the [MainWindow] object. *)
Record MainWindow := mkMainWindow {
  _settings : GeneralSettings;
  _project_settings : ProjectSettings;
  _temporary_project : bool;
  windowFilePath : string;
  windowModified : bool
}.

(** [self._max_recent_files], set once in [__init__]. *)
Definition _max_recent_files : nat := 5.

(** The window as [__init__] leaves it. *)
Definition initial_project_settings : ProjectSettings :=
  mkProjectSettings "unsaved" None None "local".

Definition initial_window (s : GeneralSettings) : MainWindow :=
  mkMainWindow s initial_project_settings true "" false.

(** A parsed project descriptor: the [resources_type] key ([None] when
    the key is absent) and the nodes [Topology.load] builds from it. *)
Record Descriptor := mkDescriptor {
  resources_type : option string;
  descriptor_nodes : list Node
}.

(** The exceptions of the model.  [TypeError] stands for what the
    library raises when it is handed [None] for a path. *)
Inductive Exn :=
  OSError | ValueError | KeyError | IndexError | TypeError | RecursionError.

(** Calls the window makes to its collaborators, in the order made. *)
Inductive Event :=
| EMessageBox (title text details : string)
| ECritical (title text : string)
| EInformation (title text : string)
| EStatusBar (text : string)
| ELogInfo (text : string)
| ELogWarning (text : string)
| EMakeDirs (path : string)
| EMkDir (path : string)
| ETempFile (name : option string)
| ERmTree (path : option string)
| ERemove (path : string)
| EWriteProject (path : string) (nodes : list Node)
| ETransfer (src dst : string) (move : bool)
| EUpdateProjectFilesDir (dir : option string)
| ETopologyLoad (d : Descriptor)
| EConvert (path name dir : string)
| ECloudInstancesSave
| EProjectCreated (path : option string)
| EAboutToClose (path : option string)
| EProjectNew (path : option string)
| EBind (host : string)
| EConnect (host : string) (port : Z)
| EStartLocalServer (path host : string) (port : Z)
| EWaitForConnection (host : string) (port : Z)
| EReconnect
| ENewProjectDialog
| ECheckForUpdate
| EAnalytics (action : string).

Inductive MakeDirsResult := MkCreated | MkFileExists | MkOSError.

(** [server.connect()]: done, or an [OSError] with or without [errno]. *)
Inductive ConnectResult := ConnOk | ConnRefused | ConnNoErrno.

Inductive Reply := Discard | Save | Cancel.

Inductive ConvertResult := ConvDone | ConvConvertError | ConvException.

(** The answers of the collaborators.  Every answer may depend on the
    moment the question is asked (the clock of the world, advanced by
    each question) and on the arguments of the call. *)
Record Env := mkEnv {
  (* Servers / the local server *)
  server_host : string;
  server_port : Z;
  server_connected : nat -> bool;
  sock_bind : nat -> string -> bool;
  server_connect : nat -> ConnectResult;
  localServerAutoStart : nat -> bool;
  localServerPath : nat -> string;
  startLocalServer : nat -> string -> bool;
  wait_dialog_exec : nat -> bool;
  server_reconnect : nat -> bool;
  (* file system *)
  os_path_isfile : nat -> string -> bool;
  os_access_x : nat -> string -> bool;
  os_path_isdir : nat -> string -> bool;
  os_makedirs : nat -> string -> MakeDirsResult;
  os_mkdir : nat -> string -> bool;
  os_remove : nat -> string -> bool;
  os_walk : nat -> string -> list (string * list string);
  named_temporary_file : nat -> option string;
  open_write : nat -> string -> bool;
  open_read : nat -> string -> bool;
  json_load : nat -> string -> option Descriptor;
  (* [Topology.load]: the nodes it leaves and the exception it raised *)
  topology_load : nat -> Descriptor -> list Node * option Exn;
  (* dialogs *)
  unsaved_changes_reply : nat -> Reply;
  new_project_dialog : nat -> option NewProjectSettings;
  open_file_dialog : nat -> string;
  recent_action_data : nat -> option string;
  save_file_dialog : nat -> option string;
  transfer_errors : nat -> list string;
  (* gns3converter *)
  converter_import : nat -> bool;
  converter_name_replies : list (string * bool);
  do_conversion : nat -> string -> ConvertResult;
  (* [int(time.mktime(time.localtime()))] *)
  current_epoch : nat -> Z
}.

(** The window together with what it shares with the rest of the
    process: the [Topology] singleton, the persisted [RecentFiles] array
    of [QSettings], the trace of calls and the clock of the oracles. *)
Record World := mkWorld {
  win : MainWindow;
  topology : list Node;
  recent_files_store : list string;
  events : list Event;
  clock : nat
}.

(** ** A state and exception monad for the methods *)

Inductive Res (A : Type) :=
| Ret (a : A)
| Raise (e : Exn).
Arguments Ret {A} a.
Arguments Raise {A} e.

Definition M (A : Type) : Type := World -> Res A * World.

Definition ret {A} (a : A) : M A := fun w => (Ret a, w).

Definition raise {A} (e : Exn) : M A := fun w => (Raise e, w).

Definition bind {A B} (c : M A) (k : A -> M B) : M B :=
  fun w =>
    match c w with
    | (Ret a, w') => k a w'
    | (Raise e, w') => (Raise e, w')
    end.

Notation "x <- c ;; k" := (bind c (fun x => k))
  (at level 61, c at next level, right associativity).
Notation "c ;;; k" := (bind c (fun _ => k))
  (at level 61, right associativity).

(** Ask a collaborator: read the oracle at the current clock and advance
    the clock. *)
Definition ask {A} (f : nat -> A) : M A :=
  fun w =>
    (Ret (f (clock w)),
     mkWorld (win w) (topology w) (recent_files_store w) (events w)
             (S (clock w))).

Definition emit (e : Event) : M unit :=
  fun w =>
    (Ret tt,
     mkWorld (win w) (topology w) (recent_files_store w) (events w ++ [e])
             (clock w)).

Definition get_win : M MainWindow := fun w => (Ret (win w), w).

Definition put_win (m : MainWindow) : M unit :=
  fun w =>
    (Ret tt,
     mkWorld m (topology w) (recent_files_store w) (events w) (clock w)).

Definition get_topology : M (list Node) := fun w => (Ret (topology w), w).

Definition put_topology (t : list Node) : M unit :=
  fun w =>
    (Ret tt,
     mkWorld (win w) t (recent_files_store w) (events w) (clock w)).

Definition get_recent : M (list string) :=
  fun w => (Ret (recent_files_store w), w).

Definition put_recent (l : list string) : M unit :=
  fun w =>
    (Ret tt, mkWorld (win w) (topology w) l (events w) (clock w)).

(** Field updates of the window. *)
Definition set_project_settings (p : ProjectSettings) (m : MainWindow) :=
  mkMainWindow (_settings m) p (_temporary_project m) (windowFilePath m)
               (windowModified m).

Definition set_project_path (v : option string) (m : MainWindow) :=
  let p := _project_settings m in
  set_project_settings
    (mkProjectSettings (project_name p) v (project_files_dir p)
                       (project_type p)) m.

Definition set_project_files_dir (v : option string) (m : MainWindow) :=
  let p := _project_settings m in
  set_project_settings
    (mkProjectSettings (project_name p) (project_path p) v
                       (project_type p)) m.

Definition set_project_name (v : string) (m : MainWindow) :=
  let p := _project_settings m in
  set_project_settings
    (mkProjectSettings v (project_path p) (project_files_dir p)
                       (project_type p)) m.

Definition set_project_type (v : string) (m : MainWindow) :=
  let p := _project_settings m in
  set_project_settings
    (mkProjectSettings (project_name p) (project_path p)
                       (project_files_dir p) v) m.

Definition set_temporary_project (b : bool) (m : MainWindow) :=
  mkMainWindow (_settings m) (_project_settings m) b (windowFilePath m)
               (windowModified m).

Definition setWindowFilePath (s : string) (m : MainWindow) :=
  mkMainWindow (_settings m) (_project_settings m) (_temporary_project m) s
               (windowModified m).

Definition setWindowModified (b : bool) (m : MainWindow) :=
  mkMainWindow (_settings m) (_project_settings m) (_temporary_project m)
               (windowFilePath m) b.

Definition set_last_check_for_update (v : Z) (m : MainWindow) :=
  let s := _settings m in
  mkMainWindow
    (mkGeneralSettings (projects_path s) (auto_launch_project_dialog s)
                       (check_for_update s) v)
    (_project_settings m) (_temporary_project m) (windowFilePath m)
    (windowModified m).

Definition modify_win (f : MainWindow -> MainWindow) : M unit :=
  m <- get_win ;; put_win (f m).

Definition try_except {A} (c : M A) (handler : Exn -> option (M A)) : M A :=
  fun w =>
    match c w with
    | (Raise e, w') =>
        match handler e with
        | Some h => h w'
        | None => (Raise e, w')
        end
    | r => r
    end.

(** ["{}".format(x)] for a value that is [None] or a string. *)
Definition fmt (o : option string) : string :=
  match o with Some s => s | None => "None" end.

(** ** The methods of [MainWindow] *)

Section Methods.

Variable env : Env.

(** Modelled from the spec: [GraphicsView.reset] is not part of these
    sources; the spec says that it resets the attached topology model
    to empty. *)
Definition uiGraphicsView_reset : M unit := put_topology [].

Definition updateProjectFilesDir (dir : option string) : M unit :=
  emit (EUpdateProjectFilesDir dir).

(** The list [_updateRecentFileSettings] writes back, from the array it
    read and the path it records. *)
Definition recent_files_update (path : string) (store : list string)
  : list string :=
  let recent_files := filter PyStr.truthy store in
  let recent_files :=
    if PyStr.contains path recent_files
    then PyStr.list_remove path recent_files
    else recent_files in
  let recent_files := path :: recent_files in
  if (_max_recent_files <? List.length recent_files)%nat
  then removelast recent_files
  else recent_files.

Definition _updateRecentFileSettings (path : string) : M unit :=
  store <- get_recent ;;
  put_recent (recent_files_update path store).

(** [_setCurrentFile(path=None)].  [_updateRecentFileActions] only
    refreshes the menu and is left out. *)
Definition _setCurrentFile (path : option string) : M unit :=
  (match path with
   | Some p =>
       if negb (PyStr.truthy p) then
         modify_win (set_temporary_project true) ;;;
         modify_win (setWindowFilePath "Unsaved project")
       else
         modify_win (set_temporary_project false) ;;;
         modify_win (setWindowFilePath p) ;;;
         _updateRecentFileSettings p
   | None =>
       modify_win (set_temporary_project true) ;;;
       modify_win (setWindowFilePath "Unsaved project")
   end) ;;;
  modify_win (setWindowModified false).

(** [saveProject(path)]: the oracle [open_write] says whether opening
    and writing the descriptor went through or raised [OSError]. *)
Definition saveProject (path : string) : M bool :=
  nodes <- get_topology ;;
  ok <- ask (fun t => open_write env t path) ;;
  if ok then
    emit (ELogInfo ("saving project: " ++ path)) ;;;
    emit (EWriteProject path nodes) ;;;
    emit (EStatusBar ("Project saved to " ++ path)) ;;;
    modify_win (set_project_path (Some path)) ;;;
    _setCurrentFile (Some path) ;;;
    ret true
  else
    emit (ECritical "Save" ("Could not save project to " ++ path)) ;;;
    ret false.

Definition _deleteTemporaryProject : M unit :=
  m <- get_win ;;
  let ps := _project_settings m in
  if _temporary_project m && PyStr.truthy_opt (project_path ps) then
    emit (ELogInfo ("deleting temporary project files directory: "
                    ++ fmt (project_files_dir ps))) ;;;
    emit (ERmTree (project_files_dir ps)) ;;;
    emit (ELogInfo ("deleting temporary topology file: "
                    ++ fmt (project_path ps))) ;;;
    emit (ERemove (fmt (project_path ps))) ;;;
    ok <- ask (fun t => os_remove env t (fmt (project_path ps))) ;;
    if ok then ret tt
    else emit (ELogWarning ("could not delete temporary topology file: "
                            ++ fmt (project_path ps)))
  else ret tt.

Definition _createTemporaryProject : M unit :=
  uiGraphicsView_reset ;;;
  try_except
    (f <- ask (named_temporary_file env) ;;
     emit (ETempFile f) ;;;
     match f with
     | None => raise OSError
     | Some f_name =>
         emit (ELogInfo ("creating temporary topology file: " ++ f_name)) ;;;
         let project_files_dir := f_name ++ "-files" in
         isdir <- ask (fun t => os_path_isdir env t project_files_dir) ;;
         (if negb isdir then
            emit (ELogInfo ("creating temporary project files directory: "
                            ++ project_files_dir)) ;;;
            emit (EMkDir project_files_dir) ;;;
            ok <- ask (fun t => os_mkdir env t project_files_dir) ;;
            if ok then ret tt else raise OSError
          else ret tt) ;;;
         modify_win (set_project_files_dir (Some project_files_dir)) ;;;
         modify_win (set_project_path (Some f_name))
     end)
    (fun e =>
       match e with
       | OSError => Some (emit (ECritical "Save" "Could not create project"))
       | _ => None
       end) ;;;
  m <- get_win ;;
  updateProjectFilesDir (project_files_dir (_project_settings m)) ;;;
  _setCurrentFile None.

(** [_createNewProject(new_project_settings)].  The message of the
    [OSError] branch is built by a [format] call with two fields and one
    argument, which raises [IndexError].  The loop that hands the cloud
    instances to the topology touches no node and is left out. *)
Definition _createNewProject (new_project_settings : NewProjectSettings)
  : M unit :=
  uiGraphicsView_reset ;;;
  let files_dir := new_project_files_dir new_project_settings in
  emit (EMakeDirs files_dir) ;;;
  r <- ask (fun t => os_makedirs env t files_dir) ;;
  match r with
  | MkOSError => raise IndexError
  | _ =>
      updateProjectFilesDir (Some files_dir) ;;;
      modify_win (set_project_settings
                    (mkProjectSettings
                       (new_project_name new_project_settings)
                       (Some (new_project_path new_project_settings))
                       (Some files_dir)
                       (new_project_type new_project_settings))) ;;;
      saveProject (new_project_path new_project_settings) ;;;
      ret tt
  end.

(** The names [saveProjectAs] collects in [running_nodes]. *)
Definition running_nodes (nodes : list Node) : list string :=
  map node_name
      (filter (fun node =>
                 node_has_start node
                 && NodeStatus_eqb (node_status node) started) nodes).

(** The inner loop of the sub-directory mirroring: [false] stands for
    the [return] of the [OSError] branch. *)
Fixpoint make_sub_directories (base_dir : string) (dirs : list string)
  : M bool :=
  match dirs with
  | [] => ret true
  | directory :: rest =>
      let destination_dir := PyStr.join base_dir directory in
      emit (EMakeDirs destination_dir) ;;;
      r <- ask (fun t => os_makedirs env t destination_dir) ;;
      match r with
      | MkOSError =>
          emit (ECritical "Save project"
                  ("Could not create project sub-directory "
                   ++ destination_dir)) ;;;
          ret false
      | _ => make_sub_directories base_dir rest
      end
  end.

(** The loop over [os.walk(project_files_dir)]. *)
Fixpoint mirror_directories (old_dir new_dir : string)
         (walk : list (string * list string)) : M bool :=
  match walk with
  | [] => ret true
  | (curpath, dirs) :: rest =>
      let base_dir := PyStr.replace curpath old_dir new_dir in
      ok <- make_sub_directories base_dir dirs ;;
      if ok then mirror_directories old_dir new_dir rest else ret false
  end.

(** [saveProjectAs()]: [None] is the bare [return], [Some b] the value
    of the final [saveProject].  [os.walk] and [os.path.basename] raise
    on [None]. *)
Definition saveProjectAs : M (option bool) :=
  nodes <- get_topology ;;
  let running := running_nodes nodes in
  if negb (Nat.eqb (List.length running) 0) then
    emit (EMessageBox "Save project"
            "Please stop the following nodes before saving the topology to a new location"
            (String.concat PyStr.nl running)) ;;;
    ret None
  else
    m <- get_win ;;
    default_project_name <-
      (if _temporary_project m then ret "untitled"
       else match project_path (_project_settings m) with
            | None => raise TypeError
            | Some p =>
                let name := PyStr.basename p in
                ret (if PyStr.endswith name ".gns3"
                     then PyStr.drop_last 5 name else name)
            end) ;;
    let projects_dir_path := projects_path (_settings m) in
    emit (EMakeDirs projects_dir_path) ;;;
    r <- ask (fun t => os_makedirs env t projects_dir_path) ;;
    match r with
    | MkOSError =>
        emit (ECritical "Save project"
                ("Could not create the projects directory "
                 ++ projects_dir_path)) ;;;
        ret None
    | _ =>
        sel <- ask (save_file_dialog env) ;;
        match sel with
        | None => ret None
        | Some project_dir =>
            let project_name := PyStr.basename project_dir in
            let topology_file_path :=
              PyStr.join project_dir (project_name ++ ".gns3") in
            let new_project_files_dir :=
              PyStr.join project_dir (project_name ++ "-files") in
            emit (EMakeDirs new_project_files_dir) ;;;
            r <- ask (fun t => os_makedirs env t new_project_files_dir) ;;
            match r with
            | MkOSError => raise IndexError
            | _ =>
                match project_files_dir (_project_settings m) with
                | None => raise TypeError
                | Some old_dir =>
                    walk <- ask (fun t => os_walk env t old_dir) ;;
                    ok <- mirror_directories old_dir new_project_files_dir
                                             walk ;;
                    if negb ok then ret None
                    else
                      updateProjectFilesDir (Some new_project_files_dir) ;;;
                      emit (ELogInfo
                              ((if _temporary_project m
                                then "moving project files from "
                                else "copying project files from ")
                               ++ old_dir ++ " to "
                               ++ new_project_files_dir)) ;;;
                      emit (ETransfer old_dir new_project_files_dir
                                      (_temporary_project m)) ;;;
                      errors <- ask (transfer_errors env) ;;
                      (if negb (Nat.eqb (List.length errors) 0) then
                         emit (EMessageBox "Save project"
                                 "Errors detected while saving the project"
                                 (String.concat PyStr.nl errors))
                       else ret tt) ;;;
                      _deleteTemporaryProject ;;;
                      modify_win (set_project_files_dir
                                    (Some new_project_files_dir)) ;;;
                      modify_win (set_project_name project_name) ;;;
                      b <- saveProject topology_file_path ;;
                      ret (Some b)
                end
            end
        end
    end.

(** [checkForUnsavedChanges()]: [Some true] is the only truthy
    result. *)
Definition checkForUnsavedChanges : M (option bool) :=
  m <- get_win ;;
  decided <-
    (if windowModified m then
       (if _temporary_project m then ret tt
        else match project_path (_project_settings m) with
             | None => raise TypeError
             | Some _ => ret tt
             end) ;;;
       reply <- ask (unsaved_changes_reply env) ;;
       match reply with
       | Save =>
           if _temporary_project m then
             r <- saveProjectAs ;; ret (Some r)
           else
             b <- saveProject (fmt (project_path (_project_settings m))) ;;
             ret (Some (Some b))
       | Cancel => ret (Some (Some false))
       | Discard => ret None
       end
     else ret None) ;;
  match decided with
  | Some r => ret r
  | None => _deleteTemporaryProject ;;; ret (Some true)
  end.

Definition is_true (r : option bool) : bool :=
  match r with Some true => true | _ => false end.

(** The [while os.path.isdir(project_dir)] loop of [_convertOldProject]:
    each turn asks the user for another name.  The replies the user
    gives are the script [converter_name_replies]; a script that has
    run out stands for the user dismissing the dialog.  [None] is the
    [return] of the loop. *)
Fixpoint choose_project_name (projects_path : string)
         (replies : list (string * bool))
         (project_name project_dir : string)
  : M (option (string * string)) :=
  isdir <- ask (fun t => os_path_isdir env t project_dir) ;;
  if isdir then
    match replies with
    | [] => ret None
    | (text, ok) :: rest =>
        if ok then
          choose_project_name projects_path rest text
                              (PyStr.join projects_path text)
        else ret None
    end
  else ret (Some (project_name, project_dir)).

(** [_convertOldProject(path)], with the method it calls back as a
    parameter. *)
Definition _convertOldProject (loadProject : string -> M (option bool))
           (path : string) : M unit :=
  imported <- ask (converter_import env) ;;
  if negb imported then
    emit (ECritical "GNS3 converter"
            "Please install gns3-converter in order to open old ini-style GNS3 projects")
  else
    m <- get_win ;;
    let projects := projects_path (_settings m) in
    let project_name := PyStr.basename (PyStr.dirname path) in
    let project_dir := PyStr.join projects project_name in
    chosen <- choose_project_name projects (converter_name_replies env)
                                  project_name project_dir ;;
    match chosen with
    | None => ret tt
    | Some (project_name, project_dir) =>
        emit (EConvert path project_name project_dir) ;;;
        c <- ask (fun t => do_conversion env t path) ;;
        match c with
        | ConvConvertError =>
            emit (ECritical "GNS3 converter" ("Could not convert " ++ path))
        | ConvException =>
            emit (EMessageBox "GNS3 converter"
                    ("Unexpected exception while converting " ++ path) "")
        | ConvDone =>
            emit (EInformation "GNS3 converter"
                    ("Your project has been converted to a new format and can be found in: "
                     ++ project_dir)) ;;;
            let project_path :=
              PyStr.join project_dir (project_name ++ ".gns3") in
            loadProject project_path ;;;
            ret tt
        end
    end.

(** The prefix of [path] that [loadProject] appends ["-files"] to. *)
Definition files_dir_stem (path : string) : string :=
  if PyStr.endswith path ".gns3" then PyStr.drop_last 5 path
  else if PyStr.endswith path ".net" then PyStr.drop_last 4 path
  else path.

(** The body of [loadProject(path)], with the method itself (for the
    call [_convertOldProject] makes back) as a parameter.  [None] is the
    bare [return] of the legacy branch.  The cursor changes and the
    silent [_labInstructionsActionSlot] touch no attribute and are left
    out. *)
Definition loadProject_body (self_loadProject : string -> M (option bool))
           (path : string) : M (option bool) :=
  uiGraphicsView_reset ;;;
  returned <-
    try_except
      (let extension := snd (PyStr.splitext path) in
       if extension =? ".net" then
         _convertOldProject self_loadProject path ;;;
         ret (Some None)
       else
         opened <- ask (fun t => open_read env t path) ;;
         if negb opened then raise OSError
         else
           emit (ELogInfo ("loading project: " ++ path)) ;;;
           parsed <- ask (fun t => json_load env t path) ;;
           match parsed with
           | None => raise ValueError
           | Some json_topology =>
               let files_dir := files_dir_stem path ++ "-files" in
               modify_win (set_project_files_dir (Some files_dir)) ;;;
               isdir <- ask (fun t => os_path_isdir env t files_dir) ;;
               (if negb isdir then
                  emit (EMakeDirs files_dir) ;;;
                  r <- ask (fun t => os_makedirs env t files_dir) ;;
                  match r with
                  | MkCreated => ret tt
                  | _ => raise OSError
                  end
                else ret tt) ;;;
               updateProjectFilesDir (Some files_dir) ;;;
               match resources_type json_topology with
               | None => raise KeyError
               | Some t =>
                   if t =? "cloud"
                   then modify_win (set_project_type "cloud")
                   else modify_win (set_project_type "local")
               end ;;;
               emit (ETopologyLoad json_topology) ;;;
               loaded <- ask (fun t => topology_load env t json_topology) ;;
               put_topology (fst loaded) ;;;
               match snd loaded with
               | Some e => raise e
               | None => ret None
               end
           end)
      (fun e =>
         match e with
         | OSError =>
             Some (emit (ECritical "Load"
                           ("Could not load project from " ++ path)) ;;;
                   ret (Some (Some false)))
         | ValueError =>
             Some (emit (ECritical "Load" "Invalid file") ;;;
                   ret (Some (Some false)))
         | _ => None
         end) ;;
  match returned with
  | Some r => ret r
  | None =>
      emit (EStatusBar ("Project loaded " ++ path)) ;;;
      modify_win (set_project_path (Some path)) ;;;
      _setCurrentFile (Some path) ;;;
      ret (Some true)
  end.

(** [loadProject(path)].  [fuel] is the depth of Python calls left: the
    interpreter raises [RecursionError] when it is used up. *)
Fixpoint loadProject (fuel : nat) (path : string) : M (option bool) :=
  match fuel with
  | O => raise RecursionError
  | S fuel' => loadProject_body (loadProject fuel') path
  end.

(** The slots connected to the two project signals. *)
Definition shutdown_cloud_instances (project : option string) : M unit :=
  m <- get_win ;;
  if _temporary_project m then ret tt else emit ECloudInstancesSave.

Definition project_created (project : option string) : M unit :=
  m <- get_win ;;
  if _temporary_project m then ret tt else emit (EProjectCreated project).

(** [signal.emit(path)]: the notification, then the connected slot.  A
    path that is [None] is recorded as it is handed over. *)
Definition project_about_to_close_signal (path : option string) : M unit :=
  emit (EAboutToClose path) ;;;
  shutdown_cloud_instances path.

Definition project_new_signal (path : option string) : M unit :=
  emit (EProjectNew path) ;;;
  project_created path.

Definition current_project_path : M (option string) :=
  m <- get_win ;; ret (project_path (_project_settings m)).

(** [_newProjectActionSlot()].  When the dialog is accepted the source
    calls [uiGraphicsView.reset(new_project_settings)] where the start-up
    calls [_createNewProject(new_project_settings)]; the call is
    modelled as the reset, which has no use for the argument, and
    nothing in the method updates [_project_settings] on that branch. *)
Definition _newProjectActionSlot : M unit :=
  proceed <- checkForUnsavedChanges ;;
  if is_true proceed then
    emit ENewProjectDialog ;;;
    create_new_project <- ask (new_project_dialog env) ;;
    old <- current_project_path ;;
    project_about_to_close_signal old ;;;
    match create_new_project with
    | Some new_project_settings => uiGraphicsView_reset
    | None => _createTemporaryProject
    end ;;;
    new <- current_project_path ;;
    project_new_signal new
  else ret tt.

Definition openProjectActionSlot (fuel : nat) : M unit :=
  path <- ask (open_file_dialog env) ;;
  if PyStr.truthy path then
    proceed <- checkForUnsavedChanges ;;
    if is_true proceed then
      old <- current_project_path ;;
      project_about_to_close_signal old ;;;
      loaded <- loadProject fuel path ;;
      if is_true loaded then project_new_signal (Some path) else ret tt
    else ret tt
  else ret tt.

Definition openRecentFileSlot (fuel : nat) : M unit :=
  action <- ask (recent_action_data env) ;;
  match action with
  | None => ret tt
  | Some path =>
      isfile <- ask (fun t => os_path_isfile env t path) ;;
      if negb isfile then
        emit (ECritical "Recent file" (path ++ ": no such file"))
      else
        proceed <- checkForUnsavedChanges ;;
        if is_true proceed then
          old <- current_project_path ;;
          project_about_to_close_signal old ;;;
          loaded <- loadProject fuel path ;;
          if is_true loaded then project_new_signal (Some path) else ret tt
        else ret tt
  end.

(** The exits of the local-server block of [startupLoading], by the
    line that leaves it. *)
Inductive BootstrapOutcome :=
| AlreadyRunning            (* [server.connected()] holds, or
                               [server.connect()] went through *)
| HostUnreachable           (* [sock.bind] raised: [return] *)
| PortConflict              (* [OSError] without [errno]: [return] *)
| AutoStartDisabled         (* [not localServerAutoStart()]: [return] *)
| NoServerConfigured        (* empty [localServerPath()]: [return] *)
| ServerBinaryMissing       (* not a file: [return] *)
| ServerBinaryNotExecutable (* no [X_OK]: [return] *)
| SpawnFailed               (* [startLocalServer] false: [return] *)
| Cancelled                 (* progress dialog rejected: [return] *)
| HandshakeFailed           (* [reconnect()] raised: reported, goes on *)
| Connected.                (* [reconnect()] went through *)

(** Whether the exit is a [return] out of [startupLoading]. *)
Definition returns_from_startup (o : BootstrapOutcome) : bool :=
  match o with
  | AlreadyRunning | HandshakeFailed | Connected => false
  | _ => true
  end.

(** The block [if not server.connected(): ...] of [startupLoading].  The
    texts of the boxes and of the log lines keep their fixed words and
    the host or path they name; the text of the exception and the port,
    which the source formats into them, are left out. *)
Definition local_server_bootstrap : M BootstrapOutcome :=
  let host := server_host env in
  let port := server_port env in
  connected <- ask (server_connected env) ;;
  if connected then ret AlreadyRunning
  else
    emit (EBind host) ;;;
    bound <- ask (fun t => sock_bind env t host) ;;
    if negb bound then
      emit (ECritical "Local server"
              ("Could not bind with " ++ host
               ++ " (please check your host binding setting)")) ;;;
      ret HostUnreachable
    else
      emit (EConnect host port) ;;;
      c <- ask (server_connect env) ;;
      match c with
      | ConnOk =>
          emit (ELogInfo "use an already started local server") ;;;
          ret AlreadyRunning
      | ConnNoErrno =>
          emit (EMessageBox "Local server"
                  ("Something other than a GNS3 server is already running on "
                   ++ host ++ ", please adjust the local server port setting")
                  "") ;;;
          ret PortConflict
      | ConnRefused =>
          auto_start <- ask (localServerAutoStart env) ;;
          if negb auto_start then ret AutoStartDisabled
          else
            logged_path <- ask (localServerPath env) ;;
            emit (ELogInfo ("starting local server " ++ logged_path)) ;;;
            local_server_path <- ask (localServerPath env) ;;
            if negb (PyStr.truthy local_server_path) then
              emit (ELogInfo "no local server is configured") ;;;
              ret NoServerConfigured
            else
              isfile <- ask (fun t => os_path_isfile env t local_server_path) ;;
              if negb isfile then
                emit (ECritical "Local server"
                        ("Could not find local server "
                         ++ local_server_path)) ;;;
                ret ServerBinaryMissing
              else
                executable <-
                  ask (fun t => os_access_x env t local_server_path) ;;
                if negb executable then
                  emit (ECritical "Local server"
                          (local_server_path ++ " is not an executable")) ;;;
                  ret ServerBinaryNotExecutable
                else
                  start_path <- ask (localServerPath env) ;;
                  emit (EStartLocalServer start_path host port) ;;;
                  started_ok <-
                    ask (fun t => startLocalServer env t start_path) ;;
                  if started_ok then
                    emit (EWaitForConnection host port) ;;;
                    accepted <- ask (wait_dialog_exec env) ;;
                    if negb accepted then ret Cancelled
                    else
                      emit EReconnect ;;;
                      ok <- ask (server_reconnect env) ;;
                      if ok then ret Connected
                      else
                        emit (ECritical "Local server"
                                ("Could not connect to the local server "
                                 ++ host)) ;;;
                        ret HandshakeFailed
                  else
                    shown_path <- ask (localServerPath env) ;;
                    emit (ECritical "Local server"
                            ("Could not start the local server process: "
                             ++ shown_path)) ;;;
                    ret SpawnFailed
      end.

(** The rest of [startupLoading], from [self._createTemporaryProject()]
    on.  The silent update check, made when the last one is a week
    (604800 seconds) old, is recorded as one event; [setSettings] then
    persists the settings it is handed, which are the window's own. *)
Definition startup_projects (outcome : BootstrapOutcome)
  : M BootstrapOutcome :=
  _createTemporaryProject ;;;
  m <- get_win ;;
  (if auto_launch_project_dialog (_settings m) then
     emit ENewProjectDialog ;;;
     create_new_project <- ask (new_project_dialog env) ;;
     match create_new_project with
     | Some new_project_settings =>
         _createNewProject new_project_settings ;;;
         path <- current_project_path ;;
         project_new_signal path
     | None => ret tt
     end
   else ret tt) ;;;
  (if check_for_update (_settings m) then
     now <- ask (current_epoch env) ;;
     m' <- get_win ;;
     if (604800 <=? now - last_check_for_update (_settings m'))%Z then
       emit ECheckForUpdate ;;;
       modify_win (set_last_check_for_update now)
     else ret tt
   else ret tt) ;;;
  emit (EAnalytics "Open") ;;;
  ret outcome.

(** [startupLoading()].  The getting-started dialog shown first touches
    no attribute of the window and is left out. *)
Definition startupLoading : M BootstrapOutcome :=
  outcome <- local_server_bootstrap ;;
  if returns_from_startup outcome then ret outcome
  else startup_projects outcome.

End Methods.

(** ** Observations on traces and worlds *)

Definition is_spawn (e : Event) : bool :=
  match e with EStartLocalServer _ _ _ => true | _ => false end.

(** The number of server processes a trace launches. *)
Definition spawn_count (tr : list Event) : nat :=
  List.length (filter is_spawn tr).

(** Calls that create, move, copy or delete something on disk. *)
Definition is_fs_mutation (e : Event) : bool :=
  match e with
  | EMakeDirs _ | EMkDir _ | ETempFile _ | ERmTree _ | ERemove _
  | EWriteProject _ _ | ETransfer _ _ _ => true
  | _ => false
  end.

Definition is_temp_file (e : Event) : bool :=
  match e with ETempFile _ => true | _ => false end.

(** The number of times a trace asks for a temporary project file, that
    is, runs [_createTemporaryProject]. *)
Definition temporary_project_count (tr : list Event) : nat :=
  List.length (filter is_temp_file tr).

Definition is_project_new (e : Event) : bool :=
  match e with EProjectNew _ => true | _ => false end.

Definition is_about_to_close (e : Event) : bool :=
  match e with EAboutToClose _ => true | _ => false end.

Definition is_teardown (e : Event) : bool :=
  match e with ERmTree _ | ERemove _ => true | _ => false end.

Definition is_signal (e : Event) : bool :=
  is_about_to_close e || is_project_new e.

(** Moves, copies and deletions of project files. *)
Definition is_file_op (e : Event) : bool :=
  match e with
  | ETransfer _ _ _ | ERmTree _ | ERemove _ => true
  | _ => false
  end.

(** Calls made while directories are mirrored or a name is chosen:
    directory creations and error boxes. *)
Definition is_mirror_event (e : Event) : bool :=
  match e with EMakeDirs _ | ECritical _ _ => true | _ => false end.

(** Calls [loadProject] makes. *)
Definition is_load_event (e : Event) : bool :=
  match e with
  | EMessageBox _ _ _ | ECritical _ _ | EInformation _ _ | EStatusBar _
  | ELogInfo _ | EMakeDirs _ | EUpdateProjectFilesDir _ | ETopologyLoad _
  | EConvert _ _ _ => true
  | _ => false
  end.

(** Calls made by the methods that save, load, create or delete a
    project: anything but the two project signals and their slots. *)
Definition is_method_event (e : Event) : bool :=
  match e with
  | EAboutToClose _ | EProjectNew _ | ECloudInstancesSave
  | EProjectCreated _ => false
  | _ => true
  end.

(** The exceptions the handlers of [loadProject] turn into [False]. *)
Definition caught_by_load (e : Exn) : bool :=
  match e with OSError | ValueError => true | _ => false end.

(** [w'] differs from [w] by calls that all satisfy [Q] (and by the
    clock). *)
Definition only_calls (Q : Event -> bool) (w w' : World) : Prop :=
  win w' = win w /\ topology w' = topology w
  /\ recent_files_store w' = recent_files_store w
  /\ exists delta,
      events w' = (events w ++ delta)%list /\ forallb Q delta = true.

(** The deletions [_deleteTemporaryProject] makes on the world [w]. *)
Definition teardown_calls (w : World) : list Event :=
  let ps := _project_settings (win w) in
  if _temporary_project (win w) && PyStr.truthy_opt (project_path ps)
  then [ERmTree (project_files_dir ps); ERemove (fmt (project_path ps))]
  else [].

(** What [loadProject_body] needs of the method it calls back: it only
    makes calls that [loadProject] makes, keeps the general settings and
    lets no exception through that the handlers of [loadProject] catch. *)
Definition loader_ok (f : string -> M (option bool)) : Prop :=
  forall p w, exists r w' delta,
    f p w = (r, w')
    /\ events w' = (events w ++ delta)%list
    /\ forallb is_load_event delta = true
    /\ _settings (win w') = _settings (win w)
    /\ match r with Raise e => caught_by_load e = false | Ret _ => True end.

(** Whether a result is the truthy [True]. *)
Definition proceeds (r : Res (option bool)) : bool :=
  match r with Ret (Some true) => true | _ => false end.

(** The world in which [openProjectActionSlot] checks for unsaved
    changes: the file dialog has been answered. *)
Definition after_open_dialog (env : Env) (w : World) : World :=
  snd (ask (open_file_dialog env) w).

(** The shape of the calls [delta] of a slot that replaces the project of
    the world [w]: either no project signal at all, or one "about to
    close" signal that carries the path of the project current at that
    moment, comes after the deletions of a temporary predecessor (none
    for a saved one) and before any "new project" signal, of which there
    is at most one; nothing is deleted after the signal. *)
Definition closing_then_opened (env : Env) (w : World) (delta : list Event)
  : Prop :=
  filter is_signal delta = []
  \/ exists pre post,
       delta
       = (pre
          ++ EAboutToClose
               (project_path
                  (_project_settings
                     (win (snd (checkForUnsavedChanges env w)))))
          :: post)%list
       /\ filter is_signal pre = []
       /\ filter is_teardown pre = teardown_calls w
       /\ filter is_teardown post = []
       /\ (filter is_signal post = []
           \/ exists new, filter is_signal post = [EProjectNew new]).

(** The naming convention in the words of the specification,
    [<descriptor-path-without-extension>-files]: the path with its
    extension, as [os.path.splitext] finds it, stripped, then
    ["-files"]. *)
Definition extension_stripped_files_dir (path : string) : string :=
  fst (PyStr.splitext path) ++ "-files".

(** The world a session starts from. *)
Definition initial_world (s : GeneralSettings) : World :=
  mkWorld (initial_window s) [] [] [] 0.


(** ** Sample sessions

    A machine described by the answers that vary between the sessions
    below: whether the host address binds, what connecting to the local
    endpoint gives, the auto-start setting, the configured server binary,
    what [os.makedirs] answers, whether descriptors can be written, and
    the file the user picks in the open dialog.  Nothing is connected at
    start, no directory exists yet, and the user discards unsaved
    changes. *)
Definition machine (bind_ok : bool) (connect : ConnectResult)
           (auto_start : bool) (server_path : string)
           (makedirs : MakeDirsResult) (write_ok : bool)
           (picked : string) : Env :=
  {| server_host := "127.0.0.1";
     server_port := 8000%Z;
     server_connected := fun _ => false;
     sock_bind := fun _ _ => bind_ok;
     server_connect := fun _ => connect;
     localServerAutoStart := fun _ => auto_start;
     localServerPath := fun _ => server_path;
     startLocalServer := fun _ _ => true;
     wait_dialog_exec := fun _ => true;
     server_reconnect := fun _ => true;
     os_path_isfile := fun _ _ => true;
     os_access_x := fun _ _ => true;
     os_path_isdir := fun _ _ => false;
     os_makedirs := fun _ _ => makedirs;
     os_mkdir := fun _ _ => true;
     os_remove := fun _ _ => true;
     os_walk := fun _ _ => [];
     named_temporary_file := fun _ => Some "/tmp/gns3-k3x9";
     open_write := fun _ _ => write_ok;
     open_read := fun _ _ => true;
     json_load := fun _ _ => Some (mkDescriptor (Some "local") []);
     topology_load := fun _ d => (descriptor_nodes d, None);
     unsaved_changes_reply := fun _ => Discard;
     new_project_dialog := fun _ => None;
     open_file_dialog := fun _ => picked;
     recent_action_data := fun _ => None;
     save_file_dialog := fun _ => Some "/home/u/projects/lab";
     transfer_errors := fun _ => [];
     converter_import := fun _ => true;
     converter_name_replies := [];
     do_conversion := fun _ _ => ConvDone;
     current_epoch := fun _ => 1414800000%Z |}.

(** Nothing listens on the endpoint, the server binary is installed and
    every file-system call goes through. *)
Definition sample_env : Env :=
  machine true ConnRefused true "/usr/bin/gns3server" MkCreated true
          "/p/lab/lab.gns3".

(** Nothing listens, no server binary is configured and auto-start is
    switched off. *)
Definition autostart_off_env : Env :=
  machine true ConnRefused false "" MkCreated true "/p/lab/lab.gns3".

(** Nothing listens and no server binary is configured. *)
Definition no_server_env : Env :=
  machine true ConnRefused true "" MkCreated true "/p/lab/lab.gns3".


(** Directories cannot be created. *)
Definition makedirs_failure_env : Env :=
  machine true ConnRefused true "/usr/bin/gns3server" MkOSError true
          "/p/lab/lab.gns3".

(** The user opens a legacy [.net] topology. *)
Definition legacy_env : Env :=
  machine true ConnRefused true "/usr/bin/gns3server" MkCreated true
          "/old/lab/topology.net".

(** The configured host address does not exist on the machine. *)
Definition bind_failure_env : Env :=
  machine false ConnRefused true "/usr/bin/gns3server" MkCreated true
          "/p/lab/lab.gns3".

Definition sample_settings : GeneralSettings :=
  mkGeneralSettings "/home/u/projects" false false 0.

(** The window after a start-up on the sample machine: a temporary
    project. *)
Definition sample_temporary_world : World :=
  snd (startupLoading sample_env (initial_world sample_settings)).

(** The same window after the temporary project was saved. *)
Definition sample_saved_world : World :=
  snd (saveProjectAs sample_env sample_temporary_world).

Definition sample_router : Node := mkNode "R1" true started.

(** A saved project with a running router on the canvas. *)
Definition sample_running_world : World :=
  mkWorld (win sample_saved_world) [sample_router]
          (recent_files_store sample_saved_world) [] 0.

(** Whether the [try] block of [_createTemporaryProject] gets through on
    the world [w]: the name of the temporary file when it does, [None]
    when the file or its directory could not be created ([OSError]). *)
Definition temporary_file_created (env : Env) (w : World) : option string :=
  match named_temporary_file env (clock w) with
  | None => None
  | Some f_name =>
      if os_path_isdir env (S (clock w)) (f_name ++ "-files")
      then Some f_name
      else if os_mkdir env (S (S (clock w))) (f_name ++ "-files")
           then Some f_name
           else None
  end.

(** The machine [e] with a user who accepts the new-project dialog and
    enters [s]. *)
Definition accepting_new_project (s : NewProjectSettings) (e : Env) : Env :=
  {| server_host := server_host e;
     server_port := server_port e;
     server_connected := server_connected e;
     sock_bind := sock_bind e;
     server_connect := server_connect e;
     localServerAutoStart := localServerAutoStart e;
     localServerPath := localServerPath e;
     startLocalServer := startLocalServer e;
     wait_dialog_exec := wait_dialog_exec e;
     server_reconnect := server_reconnect e;
     os_path_isfile := os_path_isfile e;
     os_access_x := os_access_x e;
     os_path_isdir := os_path_isdir e;
     os_makedirs := os_makedirs e;
     os_mkdir := os_mkdir e;
     os_remove := os_remove e;
     os_walk := os_walk e;
     named_temporary_file := named_temporary_file e;
     open_write := open_write e;
     open_read := open_read e;
     json_load := json_load e;
     topology_load := topology_load e;
     unsaved_changes_reply := unsaved_changes_reply e;
     new_project_dialog := fun _ => Some s;
     open_file_dialog := open_file_dialog e;
     recent_action_data := recent_action_data e;
     save_file_dialog := save_file_dialog e;
     transfer_errors := transfer_errors e;
     converter_import := converter_import e;
     converter_name_replies := converter_name_replies e;
     do_conversion := do_conversion e;
     current_epoch := current_epoch e |}.

(** What the user enters in the new-project dialog. *)
Definition sample_new_project : NewProjectSettings :=
  mkNewProjectSettings "net1" "/home/u/projects/net1/net1.gns3"
                       "/home/u/projects/net1/net1-files" "local".

(** The sample machine with the new-project dialog accepted. *)
Definition new_project_env : Env :=
  accepting_new_project sample_new_project sample_env.

(** Settings that ask for the new-project dialog at start-up. *)
Definition sample_dialog_settings : GeneralSettings :=
  mkGeneralSettings "/home/u/projects" true false 0.

(** ** Facts about the string operations *)

Example splitext_gns3 :
  PyStr.splitext "/p/lab/lab.gns3" = ("/p/lab/lab", ".gns3").
Proof. reflexivity. Qed.

Example splitext_dotfile : PyStr.splitext "/p/.net" = ("/p/.net", "").
Proof. reflexivity. Qed.

Example splitext_dotted_dir : PyStr.splitext "/p.d/lab" = ("/p.d/lab", "").
Proof. reflexivity. Qed.

Example replace_all :
  PyStr.replace "/t/a-files/x/a-files" "a-files" "b" = "/t/b/x/b".
Proof. reflexivity. Qed.

Example replace_empty_pattern : PyStr.replace "ab" "" "-" = "-a-b-".
Proof. reflexivity. Qed.

Example join_dirname :
  PyStr.join (PyStr.dirname "/old/lab/topology.net") "x" = "/old/lab/x"
  /\ PyStr.basename (PyStr.dirname "/old/lab/topology.net") = "lab"
  /\ PyStr.join "/a/" "b" = "/a/b"
  /\ PyStr.join "/a" "/b" = "/b".
Proof. repeat split; reflexivity. Qed.

Example endswith_cases :
  PyStr.endswith "lab.gns3" ".gns3" = true
  /\ PyStr.endswith "gns3" ".gns3" = false
  /\ PyStr.drop_last 5 "lab.gns3" = "lab".
Proof. repeat split; reflexivity. Qed.

Lemma length_append_str (a b : string) :
  String.length (a ++ b) = String.length a + String.length b.
Proof. induction a as [|c a IH]; cbn; [reflexivity | now rewrite IH]. Qed.

Lemma append_assoc_str (a b c : string) : (a ++ b) ++ c = a ++ (b ++ c).
Proof. induction a as [|x a IH]; cbn; [reflexivity | now rewrite IH]. Qed.

Lemma drop_length_append (a b : string) :
  PyStr.drop (String.length a) (a ++ b) = b.
Proof.
  induction a as [|c a IH]; cbn; [now destruct b | exact IH].
Qed.

Lemma take_length_append (a b : string) :
  PyStr.take (String.length a) (a ++ b) = a.
Proof.
  induction a as [|c a IH]; cbn; [now destruct b | now rewrite IH].
Qed.

Lemma endswith_append (a suf : string) : PyStr.endswith (a ++ suf) suf = true.
Proof.
  unfold PyStr.endswith. rewrite length_append_str.
  replace (String.length a + String.length suf - String.length suf)
    with (String.length a) by lia.
  rewrite drop_length_append, String.eqb_refl.
  apply andb_true_iff; split; [apply Nat.leb_le; lia | reflexivity].
Qed.

Lemma drop_last_append (a suf : string) :
  PyStr.drop_last (String.length suf) (a ++ suf) = a.
Proof.
  unfold PyStr.drop_last. rewrite length_append_str.
  replace (String.length a + String.length suf - String.length suf)
    with (String.length a) by lia.
  apply take_length_append.
Qed.

(** The stem [loadProject] computes for a path built by appending
    [".gns3"]. *)
Lemma files_dir_stem_gns3 (a : string) : files_dir_stem (a ++ ".gns3") = a.
Proof.
  unfold files_dir_stem. rewrite endswith_append.
  exact (drop_last_append a ".gns3").
Qed.

Lemma rfind_lower (c : ascii) (s : string) : (-1 <= PyStr.rfind c s)%Z.
Proof.
  induction s as [|a s IH]; cbn; [lia|].
  destruct (0 <=? PyStr.rfind c s)%Z eqn:E; [apply Z.leb_le in E; lia|].
  destruct (Ascii.eqb a c); lia.
Qed.

Lemma rfind_append_found (c : ascii) (a b : string) :
  (0 <= PyStr.rfind c b)%Z ->
  PyStr.rfind c (a ++ b) = (Z.of_nat (String.length a) + PyStr.rfind c b)%Z.
Proof.
  intros Hb. induction a as [|x a IH]; cbn [append String.length PyStr.rfind].
  - lia.
  - rewrite IH.
    destruct (0 <=? Z.of_nat (String.length a) + PyStr.rfind c b)%Z eqn:E.
    + lia.
    + apply Z.leb_gt in E. lia.
Qed.

(** The tail of a string from its first slash-free position on holds no
    slash: [basename] never starts with ["/"]. *)
Lemma rfind_none_head (c : ascii) (s : string) :
  PyStr.rfind c s = (-1)%Z ->
  match s with EmptyString => True | String a _ => Ascii.eqb a c = false end.
Proof.
  destruct s as [|a s]; cbn; [trivial|].
  destruct (0 <=? PyStr.rfind c s)%Z eqn:E.
  - apply Z.leb_le in E. lia.
  - destruct (Ascii.eqb a c); [discriminate | reflexivity].
Qed.

Lemma rfind_drop (c : ascii) (s : string) :
  PyStr.rfind c (PyStr.drop (Z.to_nat (PyStr.rfind c s + 1)) s) = (-1)%Z.
Proof.
  induction s as [|a s IH]; [reflexivity|].
  cbn [PyStr.rfind].
  destruct (0 <=? PyStr.rfind c s)%Z eqn:E.
  - apply Z.leb_le in E.
    replace (Z.to_nat (PyStr.rfind c s + 1 + 1))
      with (S (Z.to_nat (PyStr.rfind c s + 1))) by lia.
    exact IH.
  - apply Z.leb_gt in E. pose proof (rfind_lower c s) as L.
    assert (R : PyStr.rfind c s = (-1)%Z) by lia.
    destruct (Ascii.eqb a c) eqn:Ea.
    + cbn. exact R.
    + cbn. rewrite R. cbn. now rewrite Ea.
Qed.

Lemma basename_no_leading_slash (p suffix : string) :
  PyStr.truthy suffix = true ->
  PyStr.startswith suffix "/" = false ->
  PyStr.startswith (PyStr.basename p ++ suffix) "/" = false.
Proof.
  intros Ht Hs. unfold PyStr.basename.
  pose proof (rfind_none_head "/" _ (rfind_drop "/" p)) as H.
  destruct (PyStr.drop (Z.to_nat (PyStr.rfind "/" p + 1)) p) as [|a r].
  - exact Hs.
  - unfold PyStr.startswith. cbn -[ascii_dec].
    destruct (ascii_dec "/" a) as [<-|]; [|reflexivity].
    now rewrite Ascii.eqb_refl in H.
Qed.

(** Joining a directory with [name ++ suffix] puts the same prefix in
    front whatever the suffix is, as long as the second part does not
    start at the root. *)
Definition join_prefix (a : string) : string :=
  if negb (PyStr.truthy a) || PyStr.endswith a "/" then a else a ++ "/".

Lemma join_relative (a b : string) :
  PyStr.startswith b "/" = false -> PyStr.join a b = join_prefix a ++ b.
Proof.
  intros H. unfold PyStr.join, join_prefix. rewrite H.
  destruct (negb (PyStr.truthy a) || PyStr.endswith a "/"); [reflexivity|].
  now rewrite append_assoc_str.
Qed.

Lemma join_basename_stem (d : string) :
  files_dir_stem (PyStr.join d (PyStr.basename d ++ ".gns3")) ++ "-files"
  = PyStr.join d (PyStr.basename d ++ "-files").
Proof.
  rewrite !join_relative by (now apply basename_no_leading_slash).
  rewrite <- append_assoc_str, files_dir_stem_gns3.
  now rewrite append_assoc_str.
Qed.

(** A path built by appending [".gns3"] never has the legacy extension:
    the recursion of [loadProject] through [_convertOldProject] stops at
    the second call. *)
Lemma splitext_gns3_not_net (q : string) :
  (snd (PyStr.splitext (q ++ ".gns3")) =? ".net") = false.
Proof.
  unfold PyStr.splitext.
  rewrite (rfind_append_found "." q ".gns3") by (cbn; lia).
  change (PyStr.rfind "." ".gns3") with 0%Z. rewrite Z.add_0_r.
  destruct (PyStr.rfind "/" (q ++ ".gns3") <? Z.of_nat (String.length q))%Z;
    [|reflexivity].
  destruct (PyStr.all_dots _); [reflexivity|].
  cbn [snd]. rewrite Nat2Z.id, drop_length_append. reflexivity.
Qed.

(** ** The recent-files list *)













(** The method replaces the persisted array by the updated list and
    touches nothing else. *)
Lemma updateRecentFileSettings_writes (path : string) (w : World) :
  _updateRecentFileSettings path w
  = (Ret tt,
     mkWorld (win w) (topology w)
             (recent_files_update path (recent_files_store w))
             (events w) (clock w)).
Proof. reflexivity. Qed.


(** ** Running the methods *)

Arguments String.append : simpl never.
Arguments String.concat : simpl never.
Arguments PyStr.join : simpl never.
Arguments PyStr.basename : simpl never.
Arguments PyStr.dirname : simpl never.
Arguments PyStr.replace : simpl never.
Arguments PyStr.endswith : simpl never.
Arguments PyStr.drop_last : simpl never.
Arguments PyStr.splitext : simpl never.
Arguments files_dir_stem : simpl never.
Arguments recent_files_update : simpl never.
Arguments running_nodes : simpl never.

Lemma running_nodes_lists (nodes : list Node) (node : Node) :
  In node nodes -> node_has_start node = true -> node_status node = started ->
  In (node_name node) (running_nodes nodes).
Proof.
  intros Hin Hs Hst. unfold running_nodes. apply in_map.
  apply filter_In. split; [exact Hin|]. now rewrite Hs, Hst.
Qed.

(** C3: with a node that can be started and is running on the canvas,
    [saveProjectAs] shows the message box that lists the running nodes
    and returns [None]; the window, the topology, the recent files and
    the clock are as before and the message box is the only call made, so
    no directory is created and no file moved, copied or deleted. *)
Theorem saveProjectAs_refuses_running_nodes (env : Env) (w : World) (node : Node) :
  In node (topology w) ->
  node_has_start node = true ->
  node_status node = started ->
  In (node_name node) (running_nodes (topology w))
  /\ saveProjectAs env w
     = (Ret None,
        mkWorld (win w) (topology w) (recent_files_store w)
          (events w
           ++ [EMessageBox "Save project"
                 "Please stop the following nodes before saving the topology to a new location"
                 (String.concat PyStr.nl (running_nodes (topology w)))])
          (clock w))
  /\ filter is_fs_mutation (events (snd (saveProjectAs env w)))
     = filter is_fs_mutation (events w).
Proof.
  intros Hin Hs Hst.
  pose proof (running_nodes_lists _ _ Hin Hs Hst) as Hr.
  split; [exact Hr|].
  assert (E : saveProjectAs env w
              = (Ret None,
                 mkWorld (win w) (topology w) (recent_files_store w)
                   (events w
                    ++ [EMessageBox "Save project"
                          "Please stop the following nodes before saving the topology to a new location"
                          (String.concat PyStr.nl
                             (running_nodes (topology w)))])
                   (clock w))).
  { unfold saveProjectAs, bind, get_topology.
    destruct (running_nodes (topology w)) as [|n rest];
      [contradiction | reflexivity]. }
  split; [exact E|].
  rewrite E. cbn [snd events]. rewrite filter_app. cbn. apply app_nil_r.
Qed.

Lemma saveProjectAs_refuses_running_nodes_witness :
  In "R1" (running_nodes (topology sample_running_world))
  /\ fst (saveProjectAs sample_env sample_running_world) = Ret None
  /\ win (snd (saveProjectAs sample_env sample_running_world))
     = win sample_running_world.
Proof.
  destruct (saveProjectAs_refuses_running_nodes
              sample_env sample_running_world sample_router)
    as (H1 & H2 & _); [left; reflexivity | reflexivity | reflexivity |].
  split; [exact H1|]. rewrite H2. split; reflexivity.
Defined.

(** Case analysis on the answers of the oracles, after unfolding the
    monad. *)
Ltac unfold_monad :=
  unfold bind, ret, raise, ask, emit, get_win, put_win, get_topology,
    put_topology, get_recent, put_recent, modify_win, try_except in *.

Ltac oracle_case :=
  match goal with
  | |- context [match ?x with _ => _ end] =>
      lazymatch x with
      | context [match _ with _ => _ end] => fail
      | _ => destruct x eqn:?
      end
  end.

Ltac oracle_cases := repeat first [ progress cbn in * | oracle_case ].

(** What [_createTemporaryProject] leaves behind. *)
Lemma createTemporaryProject_spec (env : Env) (w : World) :
  let w' := snd (_createTemporaryProject env w) in
  fst (_createTemporaryProject env w) = Ret tt
  /\ _temporary_project (win w') = true
  /\ windowFilePath (win w') = "Unsaved project"
  /\ windowModified (win w') = false
  /\ match temporary_file_created env w with
     | None => _project_settings (win w') = _project_settings (win w)
     | Some f_name =>
         project_path (_project_settings (win w')) = Some f_name
         /\ project_files_dir (_project_settings (win w'))
            = Some (f_name ++ "-files")
     end.
Proof.
  unfold temporary_file_created, _createTemporaryProject, _setCurrentFile,
    updateProjectFilesDir, uiGraphicsView_reset.
  unfold_monad. cbn.
  destruct (named_temporary_file env (clock w)) as [f|]; cbn.
  - destruct (os_path_isdir env (S (clock w)) (f ++ "-files")); cbn.
    + repeat split; reflexivity.
    + destruct (os_mkdir env (S (S (clock w))) (f ++ "-files")); cbn;
        repeat split; reflexivity.
  - repeat split; reflexivity.
Qed.

(** C10: [_createTemporaryProject] returns normally with the project
    marked temporary, the window file path set to the unsaved
    placeholder and the modified flag cleared, whatever the file system
    answers; when the temporary file or its directory could not be
    created the project settings (path and files directory among them)
    are still those of the superseded project, otherwise they name the
    new file and its ["-files"] directory. *)
Theorem createTemporaryProject_marks_temporary (env : Env) (w : World) :
  let w' := snd (_createTemporaryProject env w) in
  fst (_createTemporaryProject env w) = Ret tt
  /\ _temporary_project (win w') = true
  /\ windowFilePath (win w') = "Unsaved project"
  /\ windowModified (win w') = false
  /\ match temporary_file_created env w with
     | None => _project_settings (win w') = _project_settings (win w)
     | Some f_name =>
         project_path (_project_settings (win w')) = Some f_name
         /\ project_files_dir (_project_settings (win w'))
            = Some (f_name ++ "-files")
     end.
Proof. exact (createTemporaryProject_spec env w). Qed.

(** ** The local-server bootstrap *)

Lemma spawn_count_app (l l' : list Event) :
  spawn_count (l ++ l') = spawn_count l + spawn_count l'.
Proof. unfold spawn_count. now rewrite filter_app, length_app. Qed.

Lemma temporary_project_count_app (l l' : list Event) :
  temporary_project_count (l ++ l')
  = temporary_project_count l + temporary_project_count l'.
Proof. unfold temporary_project_count. now rewrite filter_app, length_app. Qed.

Arguments spawn_count : simpl never.
Arguments temporary_project_count : simpl never.

Ltac count_events :=
  rewrite ?spawn_count_app, ?temporary_project_count_app;
  unfold spawn_count, temporary_project_count; cbn; try lia.

(** The bootstrap always comes back with an outcome, spawns at most one
    process, asks for no temporary file and leaves the window and the
    topology alone. *)
Lemma local_server_bootstrap_frame (env : Env) (w : World) :
  exists o w',
    local_server_bootstrap env w = (Ret o, w')
    /\ win w' = win w /\ topology w' = topology w
    /\ recent_files_store w' = recent_files_store w
    /\ spawn_count (events w') <= spawn_count (events w) + 1
    /\ temporary_project_count (events w')
       = temporary_project_count (events w).
Proof.
  unfold local_server_bootstrap. unfold_monad.
  oracle_cases;
    (do 2 eexists; split; [reflexivity|]; cbn;
     repeat split; try reflexivity; count_events).
Qed.

(** The rest of [startupLoading] launches no process. *)
Lemma startup_projects_no_spawn (env : Env) (o : BootstrapOutcome)
      (wb : World) :
  spawn_count (events (snd (startup_projects env o wb)))
  = spawn_count (events wb).
Proof.
  unfold startup_projects, _createTemporaryProject, _createNewProject,
    saveProject, _setCurrentFile, _updateRecentFileSettings,
    project_new_signal, project_created, current_project_path,
    updateProjectFilesDir, uiGraphicsView_reset.
  unfold_monad.
  oracle_cases; rewrite <- ?app_assoc; count_events.
Qed.

(** C4, as the code has it: a run whose endpoint already reports
    connected ends as [AlreadyRunning] with no call made at all; a run
    with no server binary configured never spawns, and ends as
    [NoServerConfigured] when the host binds, the connection is refused
    and auto-start is on; and no run of the bootstrap, nor of the whole
    of [startupLoading], spawns more than one process. *)
Theorem bootstrap_spawns_at_most_once (env : Env) (w : World) :
  let r := local_server_bootstrap env w in
  (server_connected env (clock w) = true ->
   fst r = Ret AlreadyRunning /\ events (snd r) = events w)
  /\ ((forall t, localServerPath env t = "") ->
      spawn_count (events (snd r)) = spawn_count (events w)
      /\ (server_connected env (clock w) = false ->
          sock_bind env (S (clock w)) (server_host env) = true ->
          server_connect env (S (S (clock w))) = ConnRefused ->
          localServerAutoStart env (S (S (S (clock w)))) = true ->
          fst r = Ret NoServerConfigured))
  /\ spawn_count (events (snd r)) <= spawn_count (events w) + 1
  /\ spawn_count (events (snd (startupLoading env w)))
     <= spawn_count (events w) + 1.
Proof.
  cbn zeta. split; [|split; [|split]].
  - intros Hc. unfold local_server_bootstrap. unfold_monad. cbn.
    rewrite Hc. split; reflexivity.
  - intros Hp. split.
    + unfold local_server_bootstrap. unfold_monad.
      oracle_cases;
        try match goal with
            | H : negb (PyStr.truthy (localServerPath env _)) = false |- _ =>
                rewrite Hp in H; discriminate
            end;
        count_events.
    + intros Hc Hb Hr Ha.
      unfold local_server_bootstrap. unfold_monad. cbn.
      rewrite Hc. cbn. rewrite Hb. cbn. rewrite Hr. cbn. rewrite Ha. cbn.
      rewrite !Hp. reflexivity.
  - destruct (local_server_bootstrap_frame env w)
      as (o & w' & E & _ & _ & _ & S1 & _).
    rewrite E. exact S1.
  - destruct (local_server_bootstrap_frame env w)
      as (o & w' & E & _ & _ & _ & S1 & _).
    unfold startupLoading, bind. rewrite E.
    destruct (returns_from_startup o); [exact S1|].
    now rewrite startup_projects_no_spawn.
Qed.

Lemma bootstrap_spawns_at_most_once_witness :
  let r := local_server_bootstrap no_server_env
             (initial_world sample_settings) in
  fst r = Ret NoServerConfigured /\ spawn_count (events (snd r)) = 0.
Proof.
  destruct (bootstrap_spawns_at_most_once
              no_server_env (initial_world sample_settings))
    as (_ & H & _ & _).
  destruct (H (fun _ => eq_refl)) as [Hs Ho].
  split; [apply Ho; reflexivity | exact Hs].
Defined.

(** C4 as stated fails: with auto-start switched off, an unreachable
    endpoint and no server binary configured, the run leaves at the
    auto-start check, before the binary is looked up, and the line that
    reports the missing configuration is never logged. *)
Lemma bootstrap_autostart_off_counterexample :
  let r := local_server_bootstrap autostart_off_env
             (initial_world sample_settings) in
  server_connected autostart_off_env 0 = false
  /\ server_connect autostart_off_env 2 = ConnRefused
  /\ localServerPath autostart_off_env 4 = ""
  /\ fst r <> Ret NoServerConfigured
  /\ fst r = Ret AutoStartDisabled
  /\ ~ In (ELogInfo "no local server is configured") (events (snd r)).
Proof.
  cbn. repeat split; try discriminate.
  intros [H|[H|[]]]; discriminate.
Qed.

(** The rest of [startupLoading] asks for exactly one temporary project,
    whatever happens afterwards. *)
Lemma startup_projects_creates_temporary (env : Env) (o : BootstrapOutcome)
      (wb : World) :
  temporary_project_count (events (snd (startup_projects env o wb)))
  = S (temporary_project_count (events wb)).
Proof.
  unfold startup_projects, _createTemporaryProject, _createNewProject,
    saveProject, _setCurrentFile, _updateRecentFileSettings,
    project_new_signal, project_created, current_project_path,
    updateProjectFilesDir, uiGraphicsView_reset.
  unfold_monad.
  oracle_cases; rewrite <- ?app_assoc; count_events.
Qed.

(** C2, as the code has it: the bootstrap always comes back with an
    outcome.  After a failed final reconnect (as after a success)
    [startupLoading] goes on and asks for one temporary project; after
    every other failure it returns at once with that outcome, the window
    as it was and no temporary project asked for. *)
Theorem startup_continues_only_past_handshake (env : Env) (w : World) :
  exists o wb,
    local_server_bootstrap env w = (Ret o, wb)
    /\ let r := startupLoading env w in
       match o with
       | AlreadyRunning | Connected | HandshakeFailed =>
           temporary_project_count (events (snd r))
           = S (temporary_project_count (events w))
       | HostUnreachable | PortConflict | AutoStartDisabled
       | NoServerConfigured | ServerBinaryMissing
       | ServerBinaryNotExecutable | SpawnFailed | Cancelled =>
           r = (Ret o, wb)
           /\ win (snd r) = win w
           /\ temporary_project_count (events (snd r))
              = temporary_project_count (events w)
       end.
Proof.
  destruct (local_server_bootstrap_frame env w)
    as (o & wb & E & Hw & _ & _ & _ & Ht).
  exists o, wb. split; [exact E|]. cbn zeta.
  assert (U : startupLoading env w
              = if returns_from_startup o then (Ret o, wb)
                else startup_projects env o wb).
  { unfold startupLoading, bind. rewrite E.
    now destruct (returns_from_startup o). }
  rewrite U.
  destruct o; cbn [returns_from_startup fst snd];
    try (repeat split; assumption);
    rewrite <- Ht; apply startup_projects_creates_temporary.
Qed.

(** C2 as stated fails: when the host address does not bind, the start-up
    returns right after the error box; no temporary project is asked for
    and the window still has no project path. *)
Lemma startup_bind_failure_counterexample :
  let r := startupLoading bind_failure_env (initial_world sample_settings) in
  fst r = Ret HostUnreachable
  /\ temporary_project_count (events (snd r)) = 0
  /\ project_path (_project_settings (win (snd r))) = None
  /\ events (snd r)
     = [EBind "127.0.0.1";
        ECritical "Local server"
          "Could not bind with 127.0.0.1 (please check your host binding setting)"].
Proof. cbn. repeat split. Qed.

(** ** Frames of the loops *)

Lemma only_calls_refl (Q : Event -> bool) (w : World) : only_calls Q w w.
Proof.
  repeat split. exists []. now rewrite app_nil_r.
Qed.

Lemma only_calls_trans (Q : Event -> bool) (w1 w2 w3 : World) :
  only_calls Q w1 w2 -> only_calls Q w2 w3 -> only_calls Q w1 w3.
Proof.
  intros (A1 & A2 & A3 & d1 & E1 & F1) (B1 & B2 & B3 & d2 & E2 & F2).
  repeat split; try congruence.
  exists (d1 ++ d2)%list. rewrite E2, E1, app_assoc. split; [reflexivity|].
  rewrite forallb_app. now rewrite F1, F2.
Qed.

Lemma make_sub_directories_frame (env : Env) (base_dir : string)
      (dirs : list string) (w : World) :
  exists ok w',
    make_sub_directories env base_dir dirs w = (Ret ok, w')
    /\ only_calls is_mirror_event w w'.
Proof.
  revert w. induction dirs as [|d dirs IH]; intros w; cbn.
  - exists true, w. split; [reflexivity | apply only_calls_refl].
  - unfold_monad. cbn.
    assert (step : forall w1,
               only_calls is_mirror_event w w1 ->
               exists ok w',
                 make_sub_directories env base_dir dirs w1 = (Ret ok, w')
                 /\ only_calls is_mirror_event w w').
    { intros w1 F1. destruct (IH w1) as (ok & w' & E & F).
      exists ok, w'. split; [exact E|].
      eapply only_calls_trans; eassumption. }
    match goal with
    | |- context [os_makedirs env ?t ?p] => destruct (os_makedirs env t p)
    end; cbn.
    + apply step. repeat split. cbn. eexists. split; reflexivity.
    + apply step. repeat split. cbn. eexists. split; reflexivity.
    + do 2 eexists. split; [reflexivity|]. repeat split. cbn.
      rewrite <- app_assoc. eexists. split; reflexivity.
Qed.

Lemma mirror_directories_frame (env : Env) (old_dir new_dir : string)
      (walk : list (string * list string)) (w : World) :
  exists ok w',
    mirror_directories env old_dir new_dir walk w = (Ret ok, w')
    /\ only_calls is_mirror_event w w'.
Proof.
  revert w. induction walk as [|[curpath dirs] walk IH]; intros w; cbn.
  - exists true, w. split; [reflexivity | apply only_calls_refl].
  - unfold bind.
    destruct (make_sub_directories_frame env
                (PyStr.replace curpath old_dir new_dir) dirs w)
      as (ok & w1 & E & F).
    rewrite E. destruct ok.
    + destruct (IH w1) as (ok' & w' & E' & F').
      exists ok', w'. split; [exact E'|].
      eapply only_calls_trans; eassumption.
    + exists false, w1. split; [reflexivity | exact F].
Qed.

Lemma choose_project_name_frame (env : Env) (projects : string)
      (replies : list (string * bool)) (name dir : string) (w : World) :
  exists r w',
    choose_project_name env projects replies name dir w = (Ret r, w')
    /\ only_calls is_mirror_event w w'.
Proof.
  revert name dir w.
  induction replies as [|[text ok] replies IH]; intros name dir w; cbn;
    unfold_monad; cbn.
  - destruct (os_path_isdir env (clock w) dir); cbn;
      do 2 eexists; (split; [reflexivity|]); repeat split;
      exists []; cbn; now rewrite app_nil_r.
  - destruct (os_path_isdir env (clock w) dir); cbn.
    + destruct ok.
      * match goal with
        | |- context [choose_project_name env projects replies ?n ?d ?w1] =>
            destruct (IH n d w1) as (r & w' & E & F)
        end.
        exists r, w'. split; [exact E|].
        eapply only_calls_trans; [|exact F].
        repeat split. exists []. cbn. now rewrite app_nil_r.
      * do 2 eexists; (split; [reflexivity|]); repeat split;
          exists []; cbn; now rewrite app_nil_r.
    + do 2 eexists; (split; [reflexivity|]); repeat split;
        exists []; cbn; now rewrite app_nil_r.
Qed.

Lemma forallb_weaken (Q Q' : Event -> bool) (l : list Event) :
  (forall e, Q e = true -> Q' e = true) ->
  forallb Q l = true -> forallb Q' l = true.
Proof.
  intros H. rewrite !forallb_forall. auto.
Qed.

Lemma filter_none (P Q : Event -> bool) (l : list Event) :
  (forall e, Q e = true -> P e = false) ->
  forallb Q l = true -> filter P l = [].
Proof.
  intros H F. induction l as [|e l IH]; cbn in *; [reflexivity|].
  apply andb_true_iff in F as [Fe Fl]. now rewrite (H e Fe), IH.
Qed.

Lemma mirror_event_is_method (e : Event) :
  is_mirror_event e = true -> is_method_event e = true.
Proof. now destruct e. Qed.

Lemma mirror_event_no_file_op (e : Event) :
  is_mirror_event e = true -> is_file_op e = false.
Proof. now destruct e. Qed.

Lemma mirror_event_is_load (e : Event) :
  is_mirror_event e = true -> is_load_event e = true.
Proof. now destruct e. Qed.

Lemma load_event_is_method (e : Event) :
  is_load_event e = true -> is_method_event e = true.
Proof. now destruct e. Qed.

Lemma load_event_no_file_op (e : Event) :
  is_load_event e = true -> is_file_op e = false.
Proof. now destruct e. Qed.

Lemma method_event_no_signal (e : Event) :
  is_method_event e = true -> is_signal e = false.
Proof. now destruct e. Qed.

(** ** Saving to another location *)

Lemma join_gns3 (d n : string) :
  exists q, PyStr.join d (n ++ ".gns3") = q ++ ".gns3".
Proof.
  unfold PyStr.join.
  destruct (PyStr.startswith (n ++ ".gns3") "/"); [now exists n|].
  destruct (negb (PyStr.truthy d) || PyStr.endswith d "/").
  - exists (d ++ n). now rewrite append_assoc_str.
  - exists (d ++ "/" ++ n). now rewrite !append_assoc_str.
Qed.

Ltac use_mirror_frame :=
  match goal with
  | |- context [mirror_directories ?e ?o ?n ?wk ?w1] =>
      let ok := fresh "ok" in
      let E := fresh "E" in
      let dl := fresh "dl" in
      let Fq := fresh "Fq" in
      let Fm := fresh "Fm" in
      let Ff := fresh "Ff" in
      let win2 := fresh "win2" in
      let topo2 := fresh "topo2" in
      let rcnt2 := fresh "rcnt2" in
      let evs2 := fresh "evs2" in
      let clk2 := fresh "clk2" in
      destruct (mirror_directories_frame e o n wk w1)
        as (ok & [win2 topo2 rcnt2 evs2 clk2] & E & Fw & Ft & Fr & dl & Fe & Fq);
      rewrite E; cbn in Fw, Ft, Fr, Fe; subst win2 topo2 rcnt2 evs2; clear E;
      pose proof (forallb_weaken _ _ _ mirror_event_is_method Fq) as Fm;
      pose proof (filter_none is_file_op _ _ mirror_event_no_file_op Fq)
        as Ff
  end.

Ltac saveas_step := first [ progress cbn | use_mirror_frame | oracle_case ].

Lemma truthy_join_gns3 (d n : string) :
  PyStr.truthy (PyStr.join d (n ++ ".gns3")) = true.
Proof.
  destruct (join_gns3 d n) as [q ->]. now destruct q.
Qed.

(** What [saveProjectAs] does, by its result: only a run that reaches the
    final [saveProject] touches the window, and it transfers once, then
    deletes what [_deleteTemporaryProject] deletes. *)
Lemma saveProjectAs_spec (env : Env) (w : World) :
  exists r w' delta,
    saveProjectAs env w = (r, w')
    /\ events w' = (events w ++ delta)%list
    /\ forallb is_method_event delta = true
    /\ topology w' = topology w
    /\ _settings (win w') = _settings (win w)
    /\ match r with
       | Ret (Some b) =>
           exists old_dir project_dir,
             project_files_dir (_project_settings (win w)) = Some old_dir
             /\ filter is_file_op delta
                = ETransfer old_dir
                    (PyStr.join project_dir
                       (PyStr.basename project_dir ++ "-files"))
                    (_temporary_project (win w))
                  :: teardown_calls w
             /\ project_files_dir (_project_settings (win w'))
                = Some (PyStr.join project_dir
                          (PyStr.basename project_dir ++ "-files"))
             /\ (if b
                 then _temporary_project (win w') = false
                      /\ project_path (_project_settings (win w'))
                         = Some (PyStr.join project_dir
                                   (PyStr.basename project_dir ++ ".gns3"))
                 else _temporary_project (win w') = _temporary_project (win w)
                      /\ project_path (_project_settings (win w'))
                         = project_path (_project_settings (win w)))
       | _ =>
           win w' = win w
           /\ recent_files_store w' = recent_files_store w
           /\ filter is_file_op delta = []
       end.
Proof.
  destruct w as [[st [nm pth fd ty] tmp wfp wm] topo rcnt evs clk].
  unfold saveProjectAs, _deleteTemporaryProject, saveProject, _setCurrentFile,
    _updateRecentFileSettings, updateProjectFilesDir, teardown_calls.
  unfold_monad. cbn.
  destruct tmp; destruct pth as [p|]; cbn;
    try (destruct (PyStr.truthy p) eqn:Tp); destruct fd as [old|]; cbn.
  all: repeat saveas_step.
  all: try discriminate.
  all: try (exfalso;
            match goal with
            | H : negb (PyStr.truthy (PyStr.join _ (_ ++ ".gns3"))) = true
              |- _ => rewrite truthy_join_gns3 in H; discriminate
            end).
  all: do 3 eexists; (split; [reflexivity|]); cbn.
  all: (split; [rewrite <- ?app_assoc;
                first [reflexivity | exact (eq_sym (app_nil_r _))]|]).
  all: rewrite ?forallb_app, ?filter_app; cbn;
       rewrite ?Fm, ?Ff; cbn.
  all: try (repeat split; reflexivity).
  all: try (repeat split; try reflexivity; do 2 eexists; repeat split; reflexivity).
Qed.




(** ** Loading a project *)

Ltac use_choose_frame :=
  match goal with
  | |- context [choose_project_name ?e ?pr ?rp ?n ?d ?w1] =>
      let r := fresh "chosen" in
      let E := fresh "E" in
      let dl := fresh "dl" in
      let Fq := fresh "Fq" in
      let Fm := fresh "Fm" in
      let win2 := fresh "win2" in
      let topo2 := fresh "topo2" in
      let rcnt2 := fresh "rcnt2" in
      let evs2 := fresh "evs2" in
      let clk2 := fresh "clk2" in
      destruct (choose_project_name_frame e pr rp n d w1)
        as (r & [win2 topo2 rcnt2 evs2 clk2] & E & Fw & Ft & Fr & dl & Fe & Fq);
      rewrite E; cbn in Fw, Ft, Fr, Fe; subst win2 topo2 rcnt2 evs2; clear E;
      pose proof (forallb_weaken _ _ _ mirror_event_is_load Fq) as Fm
  end.

Ltac use_loader H :=
  match goal with
  | |- context [match ?f ?p ?w1 with _ => _ end] =>
      lazymatch type of H with
      | loader_ok f =>
          let r := fresh "nested" in
          let E := fresh "E" in
          let dn := fresh "dn" in
          let Fn := fresh "Fn" in
          let Fs := fresh "Fs" in
          let Fc := fresh "Fc" in
          let win2 := fresh "win2" in
          let topo2 := fresh "topo2" in
          let rcnt2 := fresh "rcnt2" in
          let evs2 := fresh "evs2" in
          let clk2 := fresh "clk2" in
          destruct (H p w1)
            as (r & [win2 topo2 rcnt2 evs2 clk2] & dn & E & Fe & Fn & Fs & Fc);
          rewrite E; cbn in Fe, Fs; subst evs2; clear E
      end
  end.

(** What one call of [loadProject] does, by its result. *)
Lemma loadProject_body_spec (env : Env) (self_load : string -> M (option bool))
      (path : string) (w : World) :
  loader_ok self_load ->
  exists r w' delta,
    loadProject_body env self_load path w = (r, w')
    /\ events w' = (events w ++ delta)%list
    /\ forallb is_load_event delta = true
    /\ _settings (win w') = _settings (win w)
    /\ match r with
       | Ret (Some true) =>
           (snd (PyStr.splitext path) =? ".net") = false
           /\ project_path (_project_settings (win w')) = Some path
           /\ project_files_dir (_project_settings (win w'))
              = Some (files_dir_stem path ++ "-files")
           /\ _temporary_project (win w') = negb (PyStr.truthy path)
       | Ret (Some false) =>
           (snd (PyStr.splitext path) =? ".net") = false
           /\ project_path (_project_settings (win w'))
              = project_path (_project_settings (win w))
           /\ project_name (_project_settings (win w'))
              = project_name (_project_settings (win w))
           /\ _temporary_project (win w') = _temporary_project (win w)
           /\ windowFilePath (win w') = windowFilePath (win w)
           /\ windowModified (win w') = windowModified (win w)
           /\ recent_files_store w' = recent_files_store w
       | Ret None => (snd (PyStr.splitext path) =? ".net") = true
       | Raise e => caught_by_load e = false
       end.
Proof.
  intros Hself.
  destruct w as [[st [nm pth fd ty] tmp wfp wm] topo rcnt evs clk].
  unfold loadProject_body, _convertOldProject, _setCurrentFile,
    _updateRecentFileSettings, updateProjectFilesDir, uiGraphicsView_reset.
  unfold_monad. cbn.
  repeat first [ progress cbn | use_choose_frame | use_loader Hself
               | oracle_case ].
  all: try discriminate.
  all: do 3 eexists; (split; [reflexivity|]); cbn.
  all: (split; [rewrite <- ?app_assoc;
                first [reflexivity | exact (eq_sym (app_nil_r _))]|]).
  all: rewrite ?forallb_app; cbn; rewrite ?Fm, ?Fn; cbn.
  all: try (repeat split; first [reflexivity | assumption]).
Qed.

Lemma loadProject_loader_ok (env : Env) (fuel : nat) :
  loader_ok (loadProject env fuel).
Proof.
  induction fuel as [|fuel IH]; intros p w.
  - exists (Raise RecursionError), w, []. cbn.
    rewrite app_nil_r. repeat split.
  - destruct (loadProject_body_spec env _ p w IH)
      as (r & w' & delta & E & Ev & Fl & Fs & Hr).
    exists r, w', delta. cbn [loadProject]. repeat split; try assumption.
    destruct r as [[[|]|]|e]; tauto.
Qed.

(** A call on a path without the legacy extension never calls back: it
    needs one level of the call stack. *)
Lemma loadProject_non_legacy_fuel (env : Env) (fuel : nat) (path : string)
      (w : World) :
  (snd (PyStr.splitext path) =? ".net") = false ->
  loadProject env (S fuel) path w = loadProject env 1 path w.
Proof.
  intros H. cbn [loadProject]. unfold loadProject_body. now rewrite H.
Qed.

Lemma convertOldProject_callback (env : Env)
      (lp1 lp2 : string -> M (option bool)) (path : string) (w : World) :
  (forall d n w1, lp1 (PyStr.join d (n ++ ".gns3")) w1
                  = lp2 (PyStr.join d (n ++ ".gns3")) w1) ->
  _convertOldProject env lp1 path w = _convertOldProject env lp2 path w.
Proof.
  intros H. unfold _convertOldProject. unfold_monad.
  repeat first [ progress cbn | rewrite H | oracle_case ]; reflexivity.
Qed.

(** Two levels of the call stack are all [loadProject] ever uses. *)
Lemma loadProject_fuel_irrelevant (env : Env) (fuel : nat) (path : string)
      (w : World) :
  loadProject env (2 + fuel) path w = loadProject env 2 path w.
Proof.
  change (loadProject_body env (loadProject env (S fuel)) path w
          = loadProject_body env (loadProject env 1) path w).
  assert (C : forall w1,
             _convertOldProject env (loadProject env (S fuel)) path w1
             = _convertOldProject env (loadProject env 1) path w1).
  { intros w1. apply convertOldProject_callback. intros d n w2.
    apply loadProject_non_legacy_fuel.
    destruct (join_gns3 d n) as [q ->]. apply splitext_gns3_not_net. }
  unfold loadProject_body.
  unfold bind, try_except, uiGraphicsView_reset, put_topology.
  destruct (snd (PyStr.splitext path) =? ".net"); [|reflexivity].
  cbv beta iota. now rewrite C.
Qed.

(** C1, as the code has it: when [loadProject] returns [False] (the
    [OSError] and [ValueError] handlers), the descriptor path, the
    project name, the temporary flag, the window file path, the modified
    flag, the general settings and the recent files are those of before
    the call. *)
Theorem loadProject_error_keeps_path (env : Env) (fuel : nat) (path : string)
        (w w' : World) :
  loadProject env fuel path w = (Ret (Some false), w') ->
  project_path (_project_settings (win w'))
  = project_path (_project_settings (win w))
  /\ project_name (_project_settings (win w'))
     = project_name (_project_settings (win w))
  /\ _temporary_project (win w') = _temporary_project (win w)
  /\ windowFilePath (win w') = windowFilePath (win w)
  /\ windowModified (win w') = windowModified (win w)
  /\ _settings (win w') = _settings (win w)
  /\ recent_files_store w' = recent_files_store w.
Proof.
  destruct fuel as [|fuel]; [discriminate|].
  cbn [loadProject]. intros H.
  destruct (loadProject_body_spec env _ path w (loadProject_loader_ok env fuel))
    as (r & w1 & delta & E & _ & _ & Fs & S).
  rewrite H in E. injection E as <- <-.
  destruct S as (_ & ? & ? & ? & ? & ? & ?). repeat split; assumption.
Qed.

Lemma loadProject_error_keeps_path_witness :
  let w' := snd (loadProject makedirs_failure_env 2 "/p/lab/lab.gns3"
                             sample_running_world) in
  project_path (_project_settings (win w'))
  = Some "/home/u/projects/lab/lab.gns3"
  /\ _temporary_project (win w') = false.
Proof.
  destruct (loadProject_error_keeps_path
              makedirs_failure_env 2 "/p/lab/lab.gns3" sample_running_world
              (snd (loadProject makedirs_failure_env 2 "/p/lab/lab.gns3"
                                sample_running_world)))
    as (Hp & _ & Ht & _); [vm_compute; reflexivity|].
  cbn zeta. rewrite Hp, Ht. vm_compute. split; reflexivity.
Defined.

(** C1 as stated fails: loading a descriptor whose files directory cannot
    be created returns [False] after the files directory of the open
    project was overwritten, and after the canvas was reset. *)
Lemma loadProject_failure_counterexample :
  let w := sample_running_world in
  let r := loadProject makedirs_failure_env 2 "/p/lab/lab.gns3" w in
  fst r = Ret (Some false)
  /\ project_files_dir (_project_settings (win w))
     = Some "/home/u/projects/lab/lab-files"
  /\ project_files_dir (_project_settings (win (snd r)))
     = Some "/p/lab/lab-files"
  /\ project_files_dir (_project_settings (win (snd r)))
     <> project_files_dir (_project_settings (win w))
  /\ topology w = [sample_router]
  /\ topology (snd r) = [].
Proof.
  vm_compute. repeat split. discriminate.
Qed.

(** ** The files directory *)

(** C7, as the code has it: after a successful [loadProject] and after a
    successful [saveProjectAs] the files directory is the descriptor path
    with a trailing [".gns3"] (or [".net"]) removed, if there is one, and
    ["-files"] appended, nothing being stripped from a path with another
    extension; after [_createTemporaryProject] has created its file it is
    the name of that file with ["-files"] appended. *)
Theorem files_dir_follows_descriptor_path (env : Env) (fuel : nat)
        (path : string) (w w' : World) :
  (loadProject env fuel path w = (Ret (Some true), w') ->
   project_path (_project_settings (win w')) = Some path
   /\ project_files_dir (_project_settings (win w'))
      = Some (files_dir_stem path ++ "-files"))
  /\ (saveProjectAs env w = (Ret (Some true), w') ->
      exists saved,
        project_path (_project_settings (win w')) = Some saved
        /\ project_files_dir (_project_settings (win w'))
           = Some (files_dir_stem saved ++ "-files"))
  /\ match temporary_file_created env w with
     | Some f_name =>
         let wt := snd (_createTemporaryProject env w) in
         project_path (_project_settings (win wt)) = Some f_name
         /\ project_files_dir (_project_settings (win wt))
            = Some (f_name ++ "-files")
     | None => True
     end.
Proof.
  split; [|split].
  - destruct fuel as [|fuel]; [discriminate|].
    cbn [loadProject]. intros H.
    destruct (loadProject_body_spec env _ path w
                (loadProject_loader_ok env fuel))
      as (r & w1 & delta & E & _ & _ & _ & S).
    rewrite H in E. injection E as <- <-.
    destruct S as (_ & ? & ? & _). split; assumption.
  - intros H.
    destruct (saveProjectAs_spec env w)
      as (r & w1 & delta & E & _ & _ & _ & _ & S).
    rewrite H in E. injection E as <- <-.
    destruct S as (old_dir & project_dir & _ & _ & Hd & _ & Hp).
    eexists. split; [exact Hp|]. rewrite Hd. f_equal. symmetry.
    apply join_basename_stem.
  - pose proof (createTemporaryProject_spec env w) as (_ & _ & _ & _ & S).
    destruct (temporary_file_created env w); [exact S | exact I].
Qed.

Lemma files_dir_follows_descriptor_path_witness :
  let w' := snd (loadProject sample_env 2 "/p/lab/lab.gns3"
                             sample_temporary_world) in
  project_path (_project_settings (win w')) = Some "/p/lab/lab.gns3"
  /\ project_files_dir (_project_settings (win w'))
     = Some (files_dir_stem "/p/lab/lab.gns3" ++ "-files").
Proof.
  apply (files_dir_follows_descriptor_path
           sample_env 2 "/p/lab/lab.gns3" sample_temporary_world).
  vm_compute. reflexivity.
Defined.

(** C7 as stated fails: a descriptor named [notes.txt] loads, and its
    files directory keeps the extension. *)
Lemma files_dir_extension_counterexample :
  let path := "/p/lab/notes.txt" in
  let r := loadProject sample_env 2 path sample_temporary_world in
  fst r = Ret (Some true)
  /\ project_path (_project_settings (win (snd r))) = Some path
  /\ extension_stripped_files_dir path = "/p/lab/notes-files"
  /\ project_files_dir (_project_settings (win (snd r)))
     = Some "/p/lab/notes.txt-files"
  /\ project_files_dir (_project_settings (win (snd r)))
     <> Some (extension_stripped_files_dir path).
Proof.
  vm_compute. repeat split. discriminate.
Qed.

(** ** The slots that replace the project *)

Lemma teardown_of_file_ops (l : list Event) :
  filter is_teardown (filter is_file_op l) = filter is_teardown l.
Proof.
  induction l as [|e l IH]; cbn; [reflexivity|].
  destruct e; cbn; now rewrite ?IH.
Qed.

Lemma teardown_calls_are_teardown (w : World) :
  filter is_teardown (teardown_calls w) = teardown_calls w.
Proof.
  unfold teardown_calls.
  now destruct (_temporary_project (win w)
                && PyStr.truthy_opt (project_path (_project_settings (win w)))).
Qed.

Arguments saveProjectAs : simpl never.

Ltac use_saveas :=
  match goal with
  | |- context [saveProjectAs ?e ?w1] =>
      let r := fresh "saved" in
      let E := fresh "E" in
      let ds := fresh "ds" in
      let Fms := fresh "Fms" in
      let Fss := fresh "Fss" in
      let Fts := fresh "Fts" in
      let Hs := fresh "Hs" in
      let win2 := fresh "win2" in
      let topo2 := fresh "topo2" in
      let rcnt2 := fresh "rcnt2" in
      let evs2 := fresh "evs2" in
      let clk2 := fresh "clk2" in
      destruct (saveProjectAs_spec e w1)
        as (r & [win2 topo2 rcnt2 evs2 clk2] & ds & E & Fes & Fms & Fts & Fss & Hs);
      rewrite E; cbn in Fes, Fts, Fss, Hs; subst evs2 topo2; clear E
  end.

Lemma checkForUnsavedChanges_spec (env : Env) (w : World) :
  exists r w' delta,
    checkForUnsavedChanges env w = (r, w')
    /\ events w' = (events w ++ delta)%list
    /\ forallb is_method_event delta = true
    /\ _settings (win w') = _settings (win w)
    /\ (proceeds r = true -> filter is_teardown delta = teardown_calls w).
Proof.
  destruct w as [[st [nm pth fd ty] tmp wfp wm] topo rcnt evs clk].
  unfold checkForUnsavedChanges, _deleteTemporaryProject, saveProject,
    _setCurrentFile, _updateRecentFileSettings, teardown_calls.
  unfold_monad. cbn.
  destruct tmp; destruct pth as [p|]; cbn;
    try (destruct (PyStr.truthy p) eqn:Tp); cbn.
  all: repeat first [ progress cbn | use_saveas | oracle_case ].
  all: try discriminate.
  all: do 3 eexists; (split; [reflexivity|]); cbn.
  all: (split; [rewrite <- ?app_assoc;
                first [reflexivity | exact (eq_sym (app_nil_r _))]|]).
  all: rewrite ?forallb_app; cbn; rewrite ?Fms; cbn.
  all: try (repeat split; first [reflexivity | assumption | discriminate]).
  all: repeat split; try assumption.
  all: intros Hp; destruct a as [[|]|]; try discriminate;
       destruct Hs as (? & ? & ? & Hf & _);
       rewrite <- teardown_of_file_ops, Hf; unfold teardown_calls; cbn;
       rewrite ?Tp; reflexivity.
Qed.

Arguments checkForUnsavedChanges : simpl never.
Arguments loadProject : simpl never.

Ltac use_check :=
  match goal with
  | |- context [checkForUnsavedChanges ?e ?w1] =>
      let r := fresh "proceed" in
      let E := fresh "E" in
      let dc := fresh "dc" in
      let Fmc := fresh "Fmc" in
      let Fsc := fresh "Fsc" in
      let Htc := fresh "Htc" in
      let win2 := fresh "win2" in
      let topo2 := fresh "topo2" in
      let rcnt2 := fresh "rcnt2" in
      let evs2 := fresh "evs2" in
      let clk2 := fresh "clk2" in
      destruct (checkForUnsavedChanges_spec e w1)
        as (r & [win2 topo2 rcnt2 evs2 clk2] & dc & E & Fec & Fmc & Fsc & Htc);
      rewrite ?E; cbn in Fec, Fsc, Htc; subst evs2
  end.

Ltac use_load :=
  match goal with
  | |- context [loadProject ?e ?f ?p ?w1] =>
      let r := fresh "loaded" in
      let E := fresh "E" in
      let dl := fresh "dl" in
      let Fll := fresh "Fll" in
      let win2 := fresh "win2" in
      let topo2 := fresh "topo2" in
      let rcnt2 := fresh "rcnt2" in
      let evs2 := fresh "evs2" in
      let clk2 := fresh "clk2" in
      destruct (loadProject_loader_ok e f p w1)
        as (r & [win2 topo2 rcnt2 evs2 clk2] & dl & E & Fel & Fll & _ & _);
      rewrite ?E; cbn in Fel; subst evs2
  end.

Lemma method_events_no_signal (l : list Event) :
  forallb is_method_event l = true -> filter is_signal l = [].
Proof. apply filter_none. exact method_event_no_signal. Qed.

Lemma load_events_no_signal (l : list Event) :
  forallb is_load_event l = true -> filter is_signal l = [].
Proof.
  intros H. apply method_events_no_signal.
  revert H. apply forallb_weaken. exact load_event_is_method.
Qed.

Lemma load_events_no_teardown (l : list Event) :
  forallb is_load_event l = true -> filter is_teardown l = [].
Proof. apply filter_none. now destruct e. Qed.

Ltac closing_at pre :=
  right; exists pre; eexists; split;
  [ rewrite <- ?app_assoc; reflexivity
  | rewrite ?filter_app;
    rewrite ?(method_events_no_signal _ ltac:(eassumption));
    rewrite ?(load_events_no_signal _ ltac:(eassumption));
    rewrite ?(load_events_no_teardown _ ltac:(eassumption));
    cbn; rewrite ?app_nil_r;
    repeat split;
    first [ reflexivity | assumption
          | left; reflexivity | right; eexists; reflexivity ] ].

Lemma method_events_no_project_new (l : list Event) :
  forallb is_method_event l = true -> filter is_project_new l = [].
Proof. apply filter_none. now destruct e. Qed.

Lemma load_events_no_project_new (l : list Event) :
  forallb is_load_event l = true -> filter is_project_new l = [].
Proof. apply filter_none. now destruct e. Qed.

Lemma loadProject_trace (env : Env) (fuel : nat) (path : string) (w : World) :
  exists r w' delta,
    loadProject env fuel path w = (r, w')
    /\ events w' = (events w ++ delta)%list
    /\ forallb is_load_event delta = true
    /\ (proceeds r = true -> (snd (PyStr.splitext path) =? ".net") = false).
Proof.
  destruct fuel as [|fuel].
  - exists (Raise RecursionError), w, []. cbn. rewrite app_nil_r.
    repeat split. discriminate.
  - destruct (loadProject_body_spec env _ path w
                (loadProject_loader_ok env fuel))
      as (r & w' & delta & E & Ev & Fl & _ & S).
    exists r, w', delta. repeat split; try assumption.
    destruct r as [[[|]|]|e]; cbn; try discriminate. tauto.
Qed.

Ltac use_load_trace :=
  match goal with
  | |- context [loadProject ?e ?f ?p ?w1] =>
      let r := fresh "loaded" in
      let E := fresh "E" in
      let dl := fresh "dl" in
      let Fll := fresh "Fll" in
      let Hleg := fresh "Hleg" in
      let win2 := fresh "win2" in
      let topo2 := fresh "topo2" in
      let rcnt2 := fresh "rcnt2" in
      let evs2 := fresh "evs2" in
      let clk2 := fresh "clk2" in
      destruct (loadProject_trace e f p w1)
        as (r & [win2 topo2 rcnt2 evs2 clk2] & dl & E & Fel & Fll & Hleg);
      rewrite ?E; cbn in Fel; subst evs2
  end.

Lemma openProjectActionSlot_trace (env : Env) (fuel : nat) (w : World) :
  exists delta,
    events (snd (openProjectActionSlot env fuel w)) = (events w ++ delta)%list
    /\ closing_then_opened env (after_open_dialog env w) delta
    /\ ((snd (PyStr.splitext (open_file_dialog env (clock w))) =? ".net")
        = true ->
        filter is_project_new delta = []).
Proof.
  unfold openProjectActionSlot, closing_then_opened, after_open_dialog.
  unfold bind at 1. unfold ask. cbn [snd].
  destruct (PyStr.truthy (open_file_dialog env (clock w))).
  2: { exists []. cbn. rewrite app_nil_r. repeat split. now left. }
  unfold bind at 1.
  use_check.
  destruct proceed as [[[|]|]|e]; cbn [is_true].
  2-4: exists dc; split;
       [reflexivity
       |split; [left; now apply method_events_no_signal
               |intros _; now apply method_events_no_project_new]].
  specialize (Htc eq_refl).
  destruct win2 as [st [nm pth fd ty] tmp wfp wm].
  unfold project_about_to_close_signal, project_new_signal,
    shutdown_cloud_instances, project_created, current_project_path.
  unfold_monad. cbn.
  destruct tmp; cbn; use_load_trace;
    destruct loaded as [[[|]|]|e]; cbn;
    repeat first [ progress cbn | oracle_case ].
  all: eexists; split; [rewrite <- ?app_assoc; reflexivity|].
  all: split; [closing_at dc|].
  all: intros Hn; try (specialize (Hleg eq_refl); congruence).
  all: rewrite ?filter_app;
       rewrite ?(method_events_no_project_new _ ltac:(eassumption));
       rewrite ?(load_events_no_project_new _ ltac:(eassumption));
       reflexivity.
Qed.

Lemma openRecentFileSlot_trace (env : Env) (fuel : nat) (w : World)
      (path : string) :
  recent_action_data env (clock w) = Some path ->
  (snd (PyStr.splitext path) =? ".net") = true ->
  filter is_project_new (events (snd (openRecentFileSlot env fuel w)))
  = filter is_project_new (events w).
Proof.
  intros Ha Hn. unfold openRecentFileSlot.
  unfold bind at 1. unfold ask. cbn [snd]. rewrite Ha.
  unfold bind at 1.
  cbn [clock win topology recent_files_store events fst snd].
  destruct (os_path_isfile env (S (clock w)) path); cbn [negb].
  2: { unfold emit. cbn. rewrite filter_app. cbn. now rewrite app_nil_r. }
  unfold bind at 1. use_check.
  assert (Hc : filter is_project_new (events w ++ dc)
               = filter is_project_new (events w)).
  { rewrite filter_app, (method_events_no_project_new _ Fmc).
    now rewrite app_nil_r. }
  destruct proceed as [[[|]|]|e]; cbn [is_true]; try exact Hc.
  destruct win2 as [st [nm pth fd ty] tmp wfp wm].
  unfold project_about_to_close_signal, project_new_signal,
    shutdown_cloud_instances, project_created, current_project_path.
  unfold_monad. cbn.
  destruct tmp; cbn; use_load_trace;
    destruct loaded as [[[|]|]|e]; cbn;
    try (specialize (Hleg eq_refl); congruence);
    rewrite ?filter_app, ?(load_events_no_project_new _ Fll),
      ?(method_events_no_project_new _ Fmc); cbn;
    rewrite ?app_nil_r; reflexivity.
Qed.

(** C9: for a path with the legacy extension, [loadProject] never
    returns a success value: it returns [None], unless the nested load of
    the converted project lets an exception of its own through; two
    levels of the call stack are all it needs.  [openProjectActionSlot]
    and [openRecentFileSlot] therefore emit no "new project" signal when
    the file picked has that extension. *)
Theorem loadProject_legacy_returns_none (env : Env) (fuel : nat)
        (path : string) (w : World) :
  snd (PyStr.splitext path) = ".net" ->
  let r := loadProject env (2 + fuel) path w in
  (fst r = Ret None \/ exists e, fst r = Raise e /\ caught_by_load e = false)
  /\ r = loadProject env 2 path w
  /\ (open_file_dialog env (clock w) = path ->
      filter is_project_new
        (events (snd (openProjectActionSlot env (2 + fuel) w)))
      = filter is_project_new (events w))
  /\ (recent_action_data env (clock w) = Some path ->
      filter is_project_new
        (events (snd (openRecentFileSlot env (2 + fuel) w)))
      = filter is_project_new (events w)).
Proof.
  intros Hext.
  assert (Hn : (snd (PyStr.splitext path) =? ".net") = true)
    by (rewrite Hext; reflexivity).
  cbn zeta. split; [|split; [|split]].
  - destruct (loadProject_body_spec env _ path w
                (loadProject_loader_ok env (S fuel)))
      as (r & w' & delta & E & _ & _ & _ & Hr).
    change (loadProject env (2 + fuel) path w)
      with (loadProject_body env (loadProject env (S fuel)) path w).
    rewrite E. cbn [fst].
    destruct r as [[[|]|]|e].
    + destruct Hr as [Hr _]. congruence.
    + destruct Hr as [Hr _]. congruence.
    + now left.
    + right. now exists e.
  - apply loadProject_fuel_irrelevant.
  - intros Hd.
    destruct (openProjectActionSlot_trace env (2 + fuel) w)
      as (delta & Ev & _ & Hp).
    rewrite Ev, filter_app, Hp, app_nil_r; [reflexivity|].
    now rewrite Hd.
  - intros Ha. now apply openRecentFileSlot_trace with (path := path).
Qed.

(** On the sample machine the legacy topology is converted and the
    converted project is loaded by the nested call, yet the outer call
    returns [None] and the slot emits no "new project" signal. *)
Lemma loadProject_legacy_returns_none_witness :
  let path := "/old/lab/topology.net" in
  let w := sample_temporary_world in
  fst (loadProject legacy_env 2 path w) = Ret None
  /\ project_path (_project_settings (win (snd (loadProject legacy_env 2 path w))))
     = Some "/home/u/projects/lab/lab.gns3"
  /\ _temporary_project (win (snd (loadProject legacy_env 2 path w))) = false
  /\ filter is_project_new
       (events (snd (openProjectActionSlot legacy_env 2 w)))
     = [].
Proof.
  cbn zeta.
  destruct (loadProject_legacy_returns_none
              legacy_env 0 "/old/lab/topology.net" sample_temporary_world)
    as (_ & _ & H & _); [vm_compute; reflexivity|].
  split; [vm_compute; reflexivity|].
  split; [vm_compute; reflexivity|].
  split; [vm_compute; reflexivity|].
  cbn [Nat.add] in H. rewrite H; vm_compute; reflexivity.
Defined.

(** ** The project signals of the transitions *)

Lemma filter_app_nil {A} (f : A -> bool) (l l' : list A) :
  filter f l' = [] -> filter f (l ++ l') = filter f l.
Proof. intros H. now rewrite filter_app, H, app_nil_r. Qed.

(** The bootstrap emits no project signal and deletes nothing. *)
Lemma local_server_bootstrap_no_signal (env : Env) (w wb : World)
      (o : BootstrapOutcome) :
  local_server_bootstrap env w = (Ret o, wb) ->
  filter is_signal (events wb) = filter is_signal (events w)
  /\ filter is_teardown (events wb) = filter is_teardown (events w)
  /\ temporary_project_count (events wb) = temporary_project_count (events w).
Proof.
  unfold local_server_bootstrap. unfold_monad.
  oracle_cases; intros H; inversion H; subst; cbn;
    rewrite <- ?app_assoc;
    (split; [|split];
     [ first [reflexivity | apply filter_app_nil; reflexivity]
     | first [reflexivity | apply filter_app_nil; reflexivity]
     | first [reflexivity | count_events] ]).
Qed.

(** [_newProjectActionSlot] once [checkForUnsavedChanges] has let it
    proceed. *)
Lemma newProjectActionSlot_signals (env : Env) (w wc : World) :
  checkForUnsavedChanges env w = (Ret (Some true), wc) ->
  exists w',
    _newProjectActionSlot env w = (Ret tt, w')
    /\ filter is_teardown (events wc)
       = (filter is_teardown (events w) ++ teardown_calls w)%list
    /\ filter is_teardown (events w') = filter is_teardown (events wc)
    /\ filter is_signal (events w')
       = (filter is_signal (events w)
          ++ [EAboutToClose (project_path (_project_settings (win wc)));
              EProjectNew (project_path (_project_settings (win w')))])%list
    /\ match new_project_dialog env (clock wc) with
       | Some _ => _project_settings (win w') = _project_settings (win wc)
       | None => _temporary_project (win w') = true
       end.
Proof.
  intros Hc.
  destruct (checkForUnsavedChanges_spec env w)
    as (r & wc' & dc & E & Ev & Fm & _ & Ht).
  rewrite Hc in E. inversion E; subst r wc'. specialize (Ht eq_refl).
  unfold _newProjectActionSlot. unfold bind at 1. rewrite Hc.
  cbn [is_true].
  destruct wc as [[st [nm pth fd ty] tmp wfp wm] topo rcnt evs clk].
  cbn in Ev. subst evs.
  unfold project_about_to_close_signal, project_new_signal,
    shutdown_cloud_instances, project_created, current_project_path,
    _createTemporaryProject, _setCurrentFile, updateProjectFilesDir,
    uiGraphicsView_reset.
  unfold_monad.
  oracle_cases.
  all: eexists; split; [reflexivity|]; cbn.
  all: rewrite <- ?app_assoc.
  all: rewrite ?filter_app, ?Ht, ?(method_events_no_signal _ Fm); cbn.
  all: rewrite ?app_nil_r.
  all: repeat split; reflexivity.
Qed.

(** [openProjectActionSlot] once a file was picked and
    [checkForUnsavedChanges] has let it proceed. *)
Lemma openProjectActionSlot_signals (env : Env) (fuel : nat) (w wc : World) :
  PyStr.truthy (open_file_dialog env (clock w)) = true ->
  checkForUnsavedChanges env (after_open_dialog env w)
  = (Ret (Some true), wc) ->
  exists r w',
    openProjectActionSlot env fuel w = (r, w')
    /\ filter is_teardown (events wc)
       = (filter is_teardown (events w) ++ teardown_calls w)%list
    /\ filter is_teardown (events w') = filter is_teardown (events wc)
    /\ filter is_signal (events w')
       = (filter is_signal (events w)
          ++ EAboutToClose (project_path (_project_settings (win wc)))
          :: (if proceeds
                   (fst (loadProject env fuel (open_file_dialog env (clock w))
                           (snd (project_about_to_close_signal
                                   (project_path (_project_settings (win wc)))
                                   wc))))
              then [EProjectNew (Some (open_file_dialog env (clock w)))]
              else []))%list.
Proof.
  intros Hp Hc.
  destruct (checkForUnsavedChanges_spec env (after_open_dialog env w))
    as (r & wc' & dc & E & Ev & Fm & _ & Ht).
  rewrite Hc in E. inversion E; subst r wc'. specialize (Ht eq_refl).
  unfold after_open_dialog, ask in Hc, Ev, Ht. cbn [snd] in Hc, Ev, Ht.
  unfold teardown_calls in Ht. cbn in Ev, Ht. fold (teardown_calls w) in Ht.
  unfold openProjectActionSlot. unfold bind at 1. unfold ask.
  rewrite Hp. unfold bind at 1. rewrite Hc. cbn [is_true].
  destruct wc as [[st [nm pth fd ty] tmp wfp wm] topo rcnt evs clk].
  cbn in Ev. subst evs.
  unfold project_about_to_close_signal, project_new_signal,
    shutdown_cloud_instances, project_created, current_project_path.
  unfold_monad. cbn.
  destruct tmp; cbn; use_load_trace;
    destruct loaded as [[[|]|]|e]; cbn;
    repeat first [ progress cbn | oracle_case ].
  all: do 2 eexists; split; [reflexivity|]; cbn.
  all: rewrite <- ?app_assoc.
  all: rewrite ?filter_app, ?Ht, ?(method_events_no_signal _ Fm),
         ?(load_events_no_signal _ Fll), ?(load_events_no_teardown _ Fll);
       cbn.
  all: rewrite ?app_nil_r.
  all: repeat split; reflexivity.
Qed.

Ltac oracle_case_everywhere :=
  match goal with
  | |- context [match ?x with _ => _ end] =>
      lazymatch x with
      | context [match _ with _ => _ end] => fail
      | _ => let E := fresh "E" in destruct x eqn:E; rewrite ?E in *
      end
  end.

(** [startupLoading] when the bootstrap lets it go on and the user
    accepts the new-project dialog. *)
Lemma startupLoading_new_project_signals (env : Env) (w wb : World)
      (o : BootstrapOutcome) (settings : NewProjectSettings) :
  local_server_bootstrap env w = (Ret o, wb) ->
  returns_from_startup o = false ->
  auto_launch_project_dialog (_settings (win w)) = true ->
  new_project_dialog env (clock (snd (_createTemporaryProject env wb)))
  = Some settings ->
  os_makedirs env (S (clock (snd (_createTemporaryProject env wb))))
              (new_project_files_dir settings)
  <> MkOSError ->
  exists w',
    startupLoading env w = (Ret o, w')
    /\ project_path (_project_settings (win w'))
       = Some (new_project_path settings)
    /\ temporary_project_count (events w')
       = S (temporary_project_count (events w))
    /\ filter is_signal (events w')
       = (filter is_signal (events w)
          ++ [EProjectNew (Some (new_project_path settings))])%list
    /\ filter is_teardown (events w') = filter is_teardown (events w).
Proof.
  intros Hb Ho Ha Hd Hm.
  destruct (local_server_bootstrap_no_signal env w wb o Hb) as (S1 & T1 & C1).
  destruct (local_server_bootstrap_frame env w)
    as (o' & wb' & E & Hw & _).
  rewrite Hb in E. inversion E; subst o' wb'. clear E.
  unfold startupLoading. unfold bind at 1. rewrite Hb, Ho.
  rewrite <- S1, <- T1, <- C1, <- Hw in *. clear S1 T1 C1 Hw Hb.
  destruct wb as [[st [nm pth fd ty] tmp wfp wm] topo rcnt evs clk].
  cbn in Ha.
  unfold startup_projects, _createTemporaryProject, _createNewProject,
    saveProject, _setCurrentFile, _updateRecentFileSettings,
    project_new_signal, project_created, current_project_path,
    updateProjectFilesDir, uiGraphicsView_reset in *.
  unfold_monad. cbn in *. rewrite ?Ha.
  repeat first [ progress cbn in * | oracle_case_everywhere ].
  all: try congruence.
  all: injection Hd as Hd; subst.
  all: eexists; split; [reflexivity|]; cbn.
  all: rewrite <- ?app_assoc.
  all: split; [reflexivity|split; [|split]];
       [ count_events
       | rewrite ?filter_app; cbn; rewrite ?app_nil_r; reflexivity
       | rewrite ?filter_app; cbn; rewrite ?app_nil_r; reflexivity ].
Qed.

(** C6: the project signals of the three transitions, as the code emits
    them.

    At start-up (lines 1099-1107), when the bootstrap lets
    [startupLoading] go on, the setting asks for the new-project dialog
    and the user accepts it, the temporary project created just before
    is replaced by the new project: the only project signal emitted is
    "new project" with the new path; no "about to close" signal is
    emitted for the temporary project and none of its files is deleted.

    In [_newProjectActionSlot] (lines 400-413), once
    [checkForUnsavedChanges] has let it proceed, the files of a
    temporary predecessor are deleted first (nothing for a saved one),
    then "about to close" is emitted with the old path, then "new
    project" with the path current at that moment; when the dialog was
    accepted the project settings are still the old ones, so that the
    second signal carries the old path again.

    In [openProjectActionSlot] (lines 421-428), once a file was picked
    and [checkForUnsavedChanges] has let it proceed, the deletions come
    first, then "about to close" with the old path, then "new project"
    with the picked path exactly when [loadProject] returned [True]. *)
Theorem project_signals_of_transitions (env : Env) (fuel : nat) :
  (forall (w wb : World) (o : BootstrapOutcome)
          (settings : NewProjectSettings),
      local_server_bootstrap env w = (Ret o, wb) ->
      returns_from_startup o = false ->
      auto_launch_project_dialog (_settings (win w)) = true ->
      let wt := snd (_createTemporaryProject env wb) in
      new_project_dialog env (clock wt) = Some settings ->
      os_makedirs env (S (clock wt)) (new_project_files_dir settings)
      <> MkOSError ->
      let r := startupLoading env w in
      fst r = Ret o
      /\ project_path (_project_settings (win (snd r)))
         = Some (new_project_path settings)
      /\ temporary_project_count (events (snd r))
         = S (temporary_project_count (events w))
      /\ filter is_signal (events (snd r))
         = (filter is_signal (events w)
            ++ [EProjectNew (Some (new_project_path settings))])%list
      /\ filter is_teardown (events (snd r)) = filter is_teardown (events w))
  /\ (forall (w wc : World),
         checkForUnsavedChanges env w = (Ret (Some true), wc) ->
         let old := project_path (_project_settings (win wc)) in
         let r := _newProjectActionSlot env w in
         fst r = Ret tt
         /\ filter is_teardown (events wc)
            = (filter is_teardown (events w) ++ teardown_calls w)%list
         /\ filter is_teardown (events (snd r))
            = filter is_teardown (events wc)
         /\ filter is_signal (events (snd r))
            = (filter is_signal (events w)
               ++ [EAboutToClose old;
                   EProjectNew
                     (project_path (_project_settings (win (snd r))))])%list
         /\ match new_project_dialog env (clock wc) with
            | Some _ =>
                _project_settings (win (snd r)) = _project_settings (win wc)
            | None => _temporary_project (win (snd r)) = true
            end)
  /\ (forall (w wc : World),
         let path := open_file_dialog env (clock w) in
         PyStr.truthy path = true ->
         checkForUnsavedChanges env (after_open_dialog env w)
         = (Ret (Some true), wc) ->
         let old := project_path (_project_settings (win wc)) in
         let loaded :=
           fst (loadProject env fuel path
                  (snd (project_about_to_close_signal old wc))) in
         let r := openProjectActionSlot env fuel w in
         filter is_teardown (events wc)
         = (filter is_teardown (events w) ++ teardown_calls w)%list
         /\ filter is_teardown (events (snd r))
            = filter is_teardown (events wc)
         /\ filter is_signal (events (snd r))
            = (filter is_signal (events w)
               ++ EAboutToClose old
               :: (if proceeds loaded then [EProjectNew (Some path)]
                   else []))%list).
Proof.
  split; [|split].
  - intros w wb o settings Hb Ho Ha wt Hd Hm. cbn zeta.
    destruct (startupLoading_new_project_signals
                env w wb o settings Hb Ho Ha Hd Hm)
      as (w' & E & H).
    rewrite E. exact (conj eq_refl H).
  - intros w wc Hc. cbn zeta.
    destruct (newProjectActionSlot_signals env w wc Hc) as (w' & E & H).
    rewrite E. exact (conj eq_refl H).
  - intros w wc path Hp Hc. cbn zeta.
    destruct (openProjectActionSlot_signals env fuel w wc Hp Hc)
      as (r & w' & E & H).
    rewrite E. exact H.
Qed.

(** On the sample machine: a start-up with the new-project dialog
    accepted emits "new project" for the new path and nothing else; the
    new-project slot run on the temporary project of a start-up, dialog
    accepted, announces the deleted temporary file as the new project;
    the open slot announces the old and then the picked path. *)
Lemma project_signals_of_transitions_witness :
  filter is_signal
    (events (snd (startupLoading new_project_env
                    (initial_world sample_dialog_settings))))
  = [EProjectNew (Some "/home/u/projects/net1/net1.gns3")]
  /\ filter is_teardown
       (events (snd (startupLoading new_project_env
                       (initial_world sample_dialog_settings))))
     = []
  /\ filter is_signal
       (events (snd (_newProjectActionSlot new_project_env
                       sample_temporary_world)))
     = [EAboutToClose (Some "/tmp/gns3-k3x9");
        EProjectNew (Some "/tmp/gns3-k3x9")]
  /\ filter is_signal
       (events (snd (openProjectActionSlot sample_env 2
                       sample_temporary_world)))
     = [EAboutToClose (Some "/tmp/gns3-k3x9");
        EProjectNew (Some "/p/lab/lab.gns3")].
Proof.
  destruct (project_signals_of_transitions new_project_env 2)
    as (Hs & Hn & _).
  destruct (project_signals_of_transitions sample_env 2) as (_ & _ & Ho).
  pose proof (Hs (initial_world sample_dialog_settings)
                 (snd (local_server_bootstrap new_project_env
                         (initial_world sample_dialog_settings)))
                 Connected sample_new_project
                 ltac:(vm_compute; reflexivity) eq_refl eq_refl
                 ltac:(vm_compute; reflexivity)
                 ltac:(vm_compute; discriminate)) as Hs1.
  pose proof (Hn sample_temporary_world
                 (snd (checkForUnsavedChanges new_project_env
                         sample_temporary_world))
                 ltac:(vm_compute; reflexivity)) as Hn1.
  pose proof (Ho sample_temporary_world
                 (snd (checkForUnsavedChanges sample_env
                         (after_open_dialog sample_env
                            sample_temporary_world)))
                 ltac:(vm_compute; reflexivity)
                 ltac:(vm_compute; reflexivity)) as Ho1.
  cbv zeta in Hs1, Hn1, Ho1.
  destruct Hs1 as (_ & _ & _ & S1 & S2).
  destruct Hn1 as (_ & _ & _ & N1 & _).
  destruct Ho1 as (_ & _ & O1).
  rewrite S1, S2, N1, O1.
  vm_compute. repeat split.
Defined.

(** The run the claim fails on: a start-up with the new-project dialog
    accepted.  One temporary file is created and replaced by the new
    project; "new project" is emitted for the new path while no "about
    to close" signal was emitted at all and the temporary file and its
    directory were never deleted. *)
Lemma startup_new_project_counterexample :
  let r := startupLoading new_project_env
             (initial_world sample_dialog_settings) in
  fst r = Ret Connected
  /\ filter is_temp_file (events (snd r))
     = [ETempFile (Some "/tmp/gns3-k3x9")]
  /\ filter is_about_to_close (events (snd r)) = []
  /\ filter is_teardown (events (snd r)) = []
  /\ filter is_project_new (events (snd r))
     = [EProjectNew (Some "/home/u/projects/net1/net1.gns3")]
  /\ project_path (_project_settings (win (snd r)))
     = Some "/home/u/projects/net1/net1.gns3".
Proof. vm_compute. repeat split. Qed.

